(** * Power Rank Calculator: scoring and recommendation engines

    A shallow embedding of [power_rank_calculator.py] and the properties
    of its scoring engine ([percent_to_points], [compute_points],
    [compute_power_rank]) and of its recommendation engine
    ([needed_to_target], [calculate_needed_by_date]).

    Numbers.  The Python code computes with [float]; here a finite float
    is the rational number it denotes and arithmetic is exact ([Q]).
    [int] arguments (days, thresholds) are [Z].  Python's [round(x, 2)]
    is round-half-to-even on the exact value of [x], and [math.ceil] is
    the ceiling; both are total on rationals.  The scoring engine only
    compares percentages with thresholds and multiplies the table
    entries, which binary64 does without error, so its results are those
    of the code.  [needed_to_target] is different: it takes the ceiling
    of a quotient and two products, each rounded by the code, and a
    rounding error there moves the result by one.  It has a second model,
    [needed_to_target_binary64], on the kernel's binary64 floats, with
    the exceptions of [math.ceil] and of the conversion of an [int].  The
    current percentage and the target points of a plan are rounded by the
    code as well.  What is stated of amounts, percentages and target
    points over the exact model is what rounding to nearest keeps: signs,
    bounds and order, and the values that are computed without error.

    Dictionaries.  [METRIC_MAX_POINTS] is iterated in declaration order,
    so it is an association list.  Every other dictionary is only read
    and written by key and is a [gmap].

    Exceptions.  A function that may raise returns a [result].

    Reading and reporting.  [parse_csv] is modelled from the rows that
    [csv.DictReader] yields on, with the built-ins [float], [repr] and
    [str.strip] as parameters; [generate_report] is modelled with its
    [.2f] formatting written out. *)

From Stdlib Require Import ZArith QArith Qround Qminmax Qabs Lqa Bool.
From Stdlib Require Import PrimFloat.
From Stdlib Require FloatOps SpecFloat.
From stdpp Require Import base option list sorting strings pretty gmap fin_maps.

#[local] Open Scope Q_scope.

(** ** Exceptions *)

Inductive exn : Type :=
| KeyError (msg : string)
| ValueError (msg : string)
| OverflowError (msg : string).

Inductive result (A : Type) : Type :=
| Ok (a : A)
| Raise (e : exn).

Arguments Ok {A} a.
Arguments Raise {A} e.

#[global] Instance result_ret : MRet result := fun A a => Ok a.

#[global] Instance result_bind : MBind result := fun A B k r =>
  match r with
  | Ok a => k a
  | Raise e => Raise e
  end.

(** ** Numbers *)

(** [x < y] on floats. *)
Definition Qltb (x y : Q) : bool := negb (Qle_bool y x).

(** [x == y] on floats is decidable. *)
#[global] Instance Qeq_decision (x y : Q) : Decision (x == y) := Qeq_dec x y.

(** Nearest integer, ties to the even one. *)
Definition round_half_even (x : Q) : Z :=
  let f := Qfloor x in
  match (x - inject_Z f ?= 1 # 2)%Q with
  | Lt => f
  | Gt => (f + 1)%Z
  | Eq => if Z.even f then f else (f + 1)%Z
  end.

(** Python's [round(x, 2)]; the result is kept in lowest terms. *)
Definition round2 (x : Q) : Q :=
  Qred (inject_Z (round_half_even (x * 100)) / 100).

(** ** Dictionaries in declaration order *)

Fixpoint dict_get {V : Type} (k : string) (d : list (string * V)) : option V :=
  match d with
  | [] => None
  | (k', v) :: d' => if String.eqb k k' then Some v else dict_get k d'
  end.

(** [s.replace(old, new)] for a non-empty [old]: every occurrence of
    [old], left to right and without overlap, becomes [new].  [skip]
    counts the characters of a matched occurrence still to be dropped. *)
Fixpoint replace_from (old new : string) (skip : nat) (s : string) : string :=
  match s with
  | EmptyString => EmptyString
  | String c s' =>
      match skip with
      | S k => replace_from old new k s'
      | O =>
          if String.prefix old s
          then new +:+ replace_from old new (String.length old - 1)%nat s'
          else String c (replace_from old new 0 s')
      end
  end.

Definition replace (old new s : string) : string := replace_from old new 0 s.

(** ** Configuration tables *)

(** A value of [METRIC_RULES]: a dictionary that may hold the keys
    ["multipliers"] and ["allow_below_50"]. *)
Record rules_dict : Type := Rules {
  rules_multipliers : option (gmap Z Q);
  rules_allow_below_50 : option bool
}.

(** The module's global tables, read by every function below. *)
Record Config : Type := MkConfig {
  thresholds : list Z;
  metric_max_points : list (string * Q);
  default_multipliers : gmap Z Q;
  metric_rules : gmap string rules_dict
}.

Definition THRESHOLDS : list Z :=
  [125; 100; 90; 80; 70; 60; 50; 40; 30; 20; 0]%Z.

Definition METRIC_MAX_POINTS : list (string * Q) :=
  [ ("opps_pct", 10); ("ppvga_pct", 30); ("internet_pct", 20);
    ("accessories_pct", 10); ("protection_pct", 5); ("rate_plan_pct", 5);
    ("next_up_pct", 5); ("event_opps_pct", 5); ("plus1_pct", 5);
    ("csat_pct", 5) ]%Q.

Definition DEFAULT_MULTIPLIERS : gmap Z Q :=
  list_to_map
    [ (125%Z, 1); (100%Z, 1); (90%Z, 9 # 10); (80%Z, 8 # 10); (70%Z, 7 # 10);
      (60%Z, 6 # 10); (50%Z, 5 # 10); (40%Z, 4 # 10); (30%Z, 3 # 10);
      (20%Z, 2 # 10); (0%Z, 0) ]%Q.

Definition FIVE_POINT_MULTIPLIERS : gmap Z Q :=
  list_to_map
    [ (125%Z, 1); (100%Z, 1); (90%Z, 1); (80%Z, 1); (70%Z, 8 # 10);
      (60%Z, 6 # 10); (50%Z, 4 # 10); (40%Z, 2 # 10); (30%Z, 0);
      (20%Z, 0); (0%Z, 0) ]%Q.

Definition five_point_rules : rules_dict :=
  Rules (Some FIVE_POINT_MULTIPLIERS) (Some false).

Definition METRIC_RULES : gmap string rules_dict :=
  list_to_map
    [ ("protection_pct", five_point_rules); ("rate_plan_pct", five_point_rules);
      ("next_up_pct", five_point_rules); ("event_opps_pct", five_point_rules);
      ("plus1_pct", five_point_rules); ("csat_pct", five_point_rules) ].

Definition config : Config :=
  MkConfig THRESHOLDS METRIC_MAX_POINTS DEFAULT_MULTIPLIERS METRIC_RULES.

(** The configuration with the threshold 80 taken out of the multiplier
    map that ["protection_pct"] declares. *)
Definition config_without_80 : Config :=
  MkConfig THRESHOLDS METRIC_MAX_POINTS DEFAULT_MULTIPLIERS
    (<["protection_pct" :=
         Rules (Some (delete 80%Z FIVE_POINT_MULTIPLIERS)) (Some false)]>
       METRIC_RULES).

(** ** Records *)

Record Record : Type := MkRecord {
  data : gmap string (option Q);
  date : string;
  errors : list string
}.

(** [record.data.get(key)]: [None] when the key is missing or holds [None]. *)
Definition data_get (d : gmap string (option Q)) (key : string) : option Q :=
  mjoin (d !! key).

(** The values a plan is made of: one entry of the ["recommendations"]
    list, and the dictionary [calculate_needed_by_date] returns. *)
Record Recommendation : Type := MkRecommendation {
  metric : string;
  current_percent : Q;
  next_threshold : Z;
  point_gain : Q;
  needed_more_by_today : Z
}.

Record Plan : Type := MkPlan {
  target_rank : Q;
  target_points : Q;
  current_points : Q;
  shortfall_points : Q;
  recommendations : list Recommendation
}.

(** ** Functions that read no table *)

Definition compute_power_rank (points_dict : gmap string Q) : Q * Q :=
  let total_points :=
    round2 (map_fold (fun _ v acc => acc + v) 0 points_dict) in
  let power_rank := round2 (total_points / 100 * 10) in
  (total_points, power_rank).

Definition needed_to_target (current_value goal : Q)
    (day_of_month days_in_month : Z) (target_pct : Q) : result Z :=
  if (days_in_month <=? 0)%Z
  then Raise (ValueError "days_in_month must be greater than zero.")
  else
    let daily_target := goal / inject_Z days_in_month in
    let needed_by_today :=
      daily_target * inject_Z day_of_month * (target_pct / 100) in
    let required_more :=
      Z.max 0 (Qceiling (needed_by_today - current_value)) in
    Ok required_more.

(** ** [needed_to_target] on binary64 floats *)





(** [current_percent] in [calculate_needed_by_date]: the current value
    as a percentage of the goal, 0 for a goal of 0. *)
Definition percent_of_goal (current_value goal_value : Q) : Q :=
  if Qeq_bool goal_value 0 then 0 else current_value / goal_value * 100.

(** [recommendations.sort(key=lambda item: item["point_gain"], reverse=True)].
    Python's sort is stable, also with [reverse=True]: the result is the
    one arrangement in descending key order that keeps elements of equal
    key in their original order.  Insertion from the right computes it:
    an element passes the larger keys only. *)
Fixpoint insert_by_gain (x : Recommendation) (l : list Recommendation)
    : list Recommendation :=
  match l with
  | [] => [x]
  | y :: l' =>
      if Qltb (point_gain x) (point_gain y)
      then y :: insert_by_gain x l'
      else x :: l
  end.

Definition sort_by_gain_reverse (l : list Recommendation) : list Recommendation :=
  foldr insert_by_gain [] l.

(** The boundary the loop of [percent_to_points] stops at: the first
    threshold, in list order, that the percentage reaches. *)
Fixpoint selected_threshold (percent : Q) (ths : list Z) : option Z :=
  match ths with
  | [] => None
  | threshold :: rest =>
      if Qle_bool (inject_Z threshold) percent then Some threshold
      else selected_threshold percent rest
  end.

(** The order of the sorted list: no later element has a larger gain. *)
Definition gain_ge (a b : Recommendation) : Prop := point_gain b <= point_gain a.

Section Engines.

Variable cfg : Config.

(** [METRIC_RULES.get(metric_name, {})] and the two [rules.get] calls. *)
Definition rules_of (metric_name : string) : rules_dict :=
  default (Rules None None) (metric_rules cfg !! metric_name).

Definition multipliers_of (metric_name : string) : gmap Z Q :=
  default (default_multipliers cfg) (rules_multipliers (rules_of metric_name)).

Definition allow_below_50_of (metric_name : string) : bool :=
  default false (rules_allow_below_50 (rules_of metric_name)).

(** The loop over [THRESHOLDS] of [percent_to_points], with its final
    [return 0.0]. *)
Fixpoint tier_scan (multipliers : gmap Z Q) (max_points percent : Q)
    (ths : list Z) : Q :=
  match ths with
  | [] => 0
  | threshold :: rest =>
      if Qle_bool (inject_Z threshold) percent
      then
        let multiplier := default 0 (multipliers !! threshold) in
        round2 (max_points * multiplier)
      else tier_scan multipliers max_points percent rest
  end.

Definition percent_to_points (metric_name : string) (percent : option Q)
    : result Q :=
  match percent with
  | None => Ok 0
  | Some percent =>
      match dict_get metric_name (metric_max_points cfg) with
      | None => Raise (KeyError ("Unknown metric: " +:+ metric_name))
      | Some max_points =>
          let multipliers := multipliers_of metric_name in
          let allow_below_50 := allow_below_50_of metric_name in
          if Qltb percent 50 && negb allow_below_50
          then Ok 0
          else Ok (tier_scan multipliers max_points percent (thresholds cfg))
      end
  end.

(** The first loop of [compute_points]: [points] is the dictionary
    being filled. *)
Fixpoint fill_points (d : gmap string (option Q))
    (items : list (string * Q)) (points : gmap string Q)
    : result (gmap string Q) :=
  match items with
  | [] => Ok points
  | (metric, _) :: rest =>
      let points_key := replace "_pct" "_points" metric in
      v ← percent_to_points metric (data_get d metric);
      fill_points d rest (<[points_key := v]> points)
  end.

Definition compute_points (record : Record) : result (gmap string Q) :=
  points ← fill_points (data record) (metric_max_points cfg) ∅;
  let htp_value := data_get (data record) "htp_pct" in
  match htp_value with
  | Some htp =>
      if Qltb htp (13 # 2)
      then
        Ok (<["protection_points" :=
               round2 (default 0 (points !! "protection_points") / 2)]> points)
      else Ok points
  | None => Ok points
  end.

(** The search for [next_threshold] in [calculate_needed_by_date]:
    [continue] moves on, [break] returns the threshold at hand. *)
Fixpoint find_next_threshold (allow_below_50 : bool) (current_percent : Q)
    (ths : list Z) : option Z :=
  match ths with
  | [] => None
  | threshold :: rest =>
      if Qle_bool (inject_Z threshold) current_percent
      then find_next_threshold allow_below_50 current_percent rest
      else if (threshold <? 50)%Z && negb allow_below_50
      then find_next_threshold allow_below_50 current_percent rest
      else Some threshold
  end.

Section Plan.

Variables goals current : gmap string Q.
Variables day_of_month days_in_month : Z.

(** One iteration of the loop over [METRIC_MAX_POINTS.items()]:
    [Ok None] is a [continue], [Ok (Some r)] appends [r]. *)
Definition recommend (metric : string) : result (option Recommendation) :=
  let current_value := default 0 (current !! metric) in
  match goals !! metric with
  | None => Ok None
  | Some goal_value =>
      let current_percent :=
        if Qeq_bool goal_value 0 then 0
        else current_value / goal_value * 100 in
      current_metric_points ← percent_to_points metric (Some current_percent);
      let allow_below_50 := allow_below_50_of metric in
      match find_next_threshold allow_below_50 current_percent
              (thresholds cfg) with
      | None => Ok None
      | Some next_threshold =>
          next_points ←
            percent_to_points metric (Some (inject_Z next_threshold));
          let point_gain :=
            round2 (Qmax 0 (next_points - current_metric_points)) in
          if Qle_bool point_gain 0 then Ok None
          else
            required_more ←
              needed_to_target current_value goal_value day_of_month
                days_in_month (inject_Z next_threshold);
            Ok (Some (MkRecommendation metric (round2 current_percent)
                        next_threshold point_gain required_more))
      end
  end.

Fixpoint recommend_loop (items : list (string * Q))
    (recs : list Recommendation) : result (list Recommendation) :=
  match items with
  | [] => Ok recs
  | (metric, _) :: rest =>
      r ← recommend metric;
      recommend_loop rest
        (match r with Some x => recs ++ [x] | None => recs end)
  end.

Definition calculate_needed_by_date (target_rank : Q) : result Plan :=
  let current_record := MkRecord (Some <$> current) "" [] in
  current_points ← compute_points current_record;
  let current_total := fst (compute_power_rank current_points) in
  let target_points := target_rank / 10 * 100 in
  let shortfall := Qmax 0 (round2 (target_points - current_total)) in
  recs ← recommend_loop (metric_max_points cfg) [];
  Ok (MkPlan target_rank (round2 target_points) current_total shortfall
        (sort_by_gain_reverse recs)).

End Plan.

End Engines.

(** ** The next tier as the specification words it *)

(** Follows the specification's words, not the code: the lowest boundary
    strictly above the current percentage that passes the metric's
    [allow_below_50] gate (a boundary below 50 is passed over when sub-50
    scoring is not permitted).  It is compared with
    [find_next_threshold] below. *)
Definition lowest_reachable_boundary (allow_below_50 : bool)
    (current_percent : Q) (ths : list Z) : option Z :=
  foldr
    (fun threshold lowest =>
       if Qltb current_percent (inject_Z threshold)
          && ((50 <=? threshold)%Z || allow_below_50)
       then Some (match lowest with
                  | Some l => Z.min threshold l
                  | None => threshold
                  end)
       else lowest)
    None ths.

(** ** Sample inputs *)

(** The record scored in the module's [__main__] block. *)
Definition sample : Record :=
  MkRecord (list_to_map
    [("opps_pct", Some 61); ("ppvga_pct", Some 35); ("internet_pct", Some 36);
     ("accessories_pct", Some 70); ("protection_pct", Some 83);
     ("rate_plan_pct", Some 100); ("next_up_pct", Some 82);
     ("event_opps_pct", Some 40); ("plus1_pct", Some 38);
     ("csat_pct", Some 75); ("htp_pct", Some (51 # 10))]) "2026-02-14" [].

(** Goals and current values of four metrics: 70, 0 (no current value),
    10 and 70 percent of goal, on day 14 of 28. *)
Definition example_goals : gmap string Q :=
  list_to_map
    [("opps_pct", 100); ("protection_pct", 100); ("rate_plan_pct", 100);
     ("next_up_pct", 100)].

Definition example_current : gmap string Q :=
  list_to_map [("opps_pct", 70); ("rate_plan_pct", 10); ("next_up_pct", 70)].

Definition example_recommendation : Recommendation :=
  MkRecommendation "protection_pct" 0 125 5 63.

Definition example_plan : Plan :=
  MkPlan 8 80 11 69
    [ example_recommendation;
      MkRecommendation "rate_plan_pct" 10 125 5 53;
      MkRecommendation "opps_pct" 70 125 3 0;
      MkRecommendation "next_up_pct" 70 125 1 0 ].

(** ** Well-formed table rows *)

(** What the tables give for one metric: sub-50 scoring is off, the
    maximum is a whole number of points, and the metric's multiplier map
    covers every threshold with a multiplier in [[0, 1]] that does not
    decrease with the threshold. *)
Record metric_profile (metric_name : string) (max_points : Q) : Prop := {
  profile_gate : allow_below_50_of config metric_name = false;
  profile_max_nonneg : 0 <= max_points;
  profile_max_round : round2 max_points == max_points;
  profile_covered :
    Forall (fun t => exists m, multipliers_of config metric_name !! t = Some m)
      THRESHOLDS;
  profile_unit :
    Forall (fun t => 0 <= default 0 (multipliers_of config metric_name !! t) <= 1)
      THRESHOLDS;
  profile_monotone :
    StronglySorted
      (fun hi lo =>
         default 0 (multipliers_of config metric_name !! lo) <=
         default 0 (multipliers_of config metric_name !! hi))
      THRESHOLDS
}.

(** Splits a statement over [THRESHOLDS] into its entries and computes
    each. *)
Ltac table_entries :=
  unfold THRESHOLDS;
  repeat first
    [ apply Forall_nil_2 | apply Forall_cons_2 | apply SSorted_nil
    | apply SSorted_cons ];
  vm_compute;
  solve [ eexists; reflexivity | split; discriminate | discriminate ].

(** ** The sum of a points dictionary *)

(** [sum(points_dict.values())]. *)
Definition points_sum (points_dict : gmap string Q) : Q :=
  map_fold (fun _ v acc => acc + v) 0 points_dict.

(** ** Reading rows *)

(** [parse_csv] after [csv.DictReader]: a row maps the header's field
    names to the text of the row, [None] standing for a field the row is
    too short to hold.  Three built-ins are taken as they are: [float] on
    a string ([None] when it raises [ValueError]), [repr] of a string and
    [str.strip]. *)
Section Parsing.

Variable cfg : Config.
Variable float_of_string : string -> option Q.
Variable repr : string -> string.
Variable strip : string -> string.

(** [errors] is the list the caller passes; the list after the call is
    returned beside the result. *)
Definition _to_float (value : option string) (field_name : string)
    (errors : list string) : option Q * list string :=
  match value with
  | None | Some EmptyString =>
      (None, errors ++ ["Missing value for " +:+ field_name +:+ "."])
  | Some value =>
      match float_of_string value with
      | Some x => (Some x, errors)
      | None =>
          (None,
           errors ++ ["Invalid number for " +:+ field_name +:+ ": "
                      +:+ repr value +:+ "."])
      end
  end.

(** [row.get(field, "")]. *)
Definition row_get (row : gmap string (option string)) (field : string)
    : option string :=
  match row !! field with
  | Some value => value
  | None => Some EmptyString
  end.

(** The loop [for field in METRIC_MAX_POINTS] of [parse_csv]. *)
Fixpoint parse_fields (row : gmap string (option string))
    (fields : list (string * Q)) (data : gmap string (option Q))
    (errors : list string) : gmap string (option Q) * list string :=
  match fields with
  | [] => (data, errors)
  | (field, _) :: rest =>
      let '(value, errors) := _to_float (row_get row field) field errors in
      parse_fields row rest (<[field := value]> data) errors
  end.

(** The body of the loop [for row in reader]: the record appended for
    one row. *)
Definition parse_csv_row (row : gmap string (option string)) : Record :=
  let errors := [] in
  let date_value := strip (default EmptyString (mjoin (row !! "date"))) in
  let '(date_value, errors) :=
    if String.eqb date_value EmptyString
    then (EmptyString, errors ++ ["Missing date value."])
    else (date_value, errors) in
  let '(data, errors) := parse_fields row (metric_max_points cfg) ∅ errors in
  let '(htp_value, errors) :=
    _to_float (row_get row "htp_pct") "htp_pct" errors in
  MkRecord (<["htp_pct" := htp_value]> data) date_value errors.

(** [parse_csv] on the rows read from the file. *)
Definition parse_csv_rows (rows : list (gmap string (option string)))
    : list Record :=
  parse_csv_row <$> rows.

End Parsing.

(** ** The report *)

(** One decimal digit. *)
Definition digit_char (d : Z) : Ascii.ascii :=
  Ascii.ascii_of_N (48 + Z.to_N d).

(** [f"{x:.2f}"]: the value rounded half-to-even to two decimals, with
    the sign of [x], the whole part in decimal and two digits after the
    point. *)
Definition format_2f (x : Q) : string :=
  let n := round_half_even (Qabs x * 100) in
  (if Qltb x 0 then "-" else "")
  +:+ pretty (Z.to_N (n / 100)) +:+ "."
  +:+ String (digit_char (n mod 100 / 10))
        (String (digit_char (n mod 10)) EmptyString).

Section Report.

Variable cfg : Config.

(** The line of one metric. *)
Definition metric_line (record : Record) (points : gmap string Q)
    (metric : string) : string :=
  let percent_value := data_get (data record) metric in
  let points_key := replace "_pct" "_points" metric in
  let points_value := default 0 (points !! points_key) in
  let percent_display :=
    match percent_value with
    | None => "n/a"
    | Some percent_value => format_2f percent_value +:+ "%"
    end in
  "- " +:+ metric +:+ ": " +:+ percent_display +:+ " -> "
  +:+ format_2f points_value +:+ " pts".

(** The list [lines] of [generate_report] before it is joined. *)
Definition report_lines (record : Record) (points : gmap string Q)
    (power_rank : Q) : list string :=
  let total_points :=
    round2 (map_fold (fun _ v acc => acc + v) 0 points) in
  let lines := ["Date: " +:+ date record; "Metric Summary:"] in
  let lines :=
    lines ++ (metric_line record points <$> (metric_max_points cfg).*1) in
  let lines :=
    match errors record with
    | [] => lines
    | _ :: _ =>
        (lines ++ ["Errors:"]) ++ ((fun error => "- " +:+ error) <$> errors record)
    end in
  lines ++ ["Total Points: " +:+ format_2f total_points;
            "Power Rank: " +:+ format_2f power_rank].

Definition generate_report (record : Record) (points : gmap string Q)
    (power_rank : Q) : string :=
  String.concat (String (Ascii.ascii_of_N 10) EmptyString)
    (report_lines record points power_rank).

End Report.

(** * Properties *)

(** ** Rounding *)

Lemma Qltb_lt (x y : Q) : Qltb x y = true <-> x < y.
Proof.
  unfold Qltb. rewrite negb_true_iff, <- not_true_iff_false, Qle_bool_iff.
  split; [apply Qnot_le_lt | apply Qlt_not_le].
Qed.

Lemma Qltb_ge (x y : Q) : Qltb x y = false <-> y <= x.
Proof. unfold Qltb. rewrite negb_false_iff. apply Qle_bool_iff. Qed.

Lemma Qle_bool_gt (x y : Q) : Qle_bool x y = false <-> y < x.
Proof.
  rewrite <- not_true_iff_false, Qle_bool_iff.
  split; [apply Qnot_le_lt | apply Qlt_not_le].
Qed.

#[global] Instance round_half_even_comp : Proper (Qeq ==> eq) round_half_even.
Proof.
  intros x y E. unfold round_half_even.
  assert (Ef : Qfloor x = Qfloor y) by (now rewrite E).
  rewrite Ef. now rewrite E.
Qed.

Lemma round_half_even_Z (n : Z) : round_half_even (inject_Z n) = n.
Proof.
  unfold round_half_even. rewrite Qfloor_Z.
  assert (E : inject_Z n - inject_Z n == 0) by ring.
  rewrite E. reflexivity.
Qed.

Lemma round_half_even_floor (x : Q) :
  (Qfloor x <= round_half_even x <= Qfloor x + 1)%Z.
Proof.
  unfold round_half_even.
  destruct (x - inject_Z (Qfloor x) ?= 1 # 2); [destruct (Z.even _) | |]; lia.
Qed.

Lemma round_half_even_mono (x y : Q) :
  x <= y -> (round_half_even x <= round_half_even y)%Z.
Proof.
  intros Hxy.
  pose proof (Qfloor_resp_le _ _ Hxy) as Hf.
  destruct (Z.eq_dec (Qfloor x) (Qfloor y)) as [E | NE].
  - unfold round_half_even. rewrite <- E.
    destruct (Qcompare_spec (x - inject_Z (Qfloor x)) (1 # 2)) as [Hx | Hx | Hx];
      destruct (Qcompare_spec (y - inject_Z (Qfloor x)) (1 # 2)) as [Hy | Hy | Hy];
      try destruct (Z.even (Qfloor x)); try lia; exfalso; lra.
  - pose proof (round_half_even_floor x). pose proof (round_half_even_floor y). lia.
Qed.

#[global] Instance round2_comp : Proper (Qeq ==> eq) round2.
Proof. intros x y E. unfold round2. apply Qred_complete. now rewrite E. Qed.

Lemma round2_mono (x y : Q) : x <= y -> round2 x <= round2 y.
Proof.
  intros Hxy. unfold round2. apply Qred_le.
  assert (H : x * 100 <= y * 100) by lra.
  apply round_half_even_mono in H. rewrite Zle_Qle in H.
  apply Qmult_le_compat_r with (z := / 100) in H; [exact H | discriminate].
Qed.

(** A value with at most two decimals is left as it is. *)
Lemma round2_hundredths (n : Z) : round2 (inject_Z n / 100) == inject_Z n / 100.
Proof.
  unfold round2. rewrite Qred_correct.
  assert (E : inject_Z n / 100 * 100 == inject_Z n) by (field).
  rewrite E, round_half_even_Z. reflexivity.
Qed.

Lemma round2_Z (n : Z) : round2 (inject_Z n) == inject_Z n.
Proof.
  assert (E : inject_Z n == inject_Z (n * 100) / 100).
  { rewrite inject_Z_mult. field. }
  rewrite E at 1. rewrite round2_hundredths. now rewrite <- E.
Qed.

Lemma round2_0 : round2 0 = 0.
Proof. reflexivity. Qed.

Lemma round2_nonneg (x : Q) : 0 <= x -> 0 <= round2 x.
Proof. intros H. apply round2_mono in H. now rewrite round2_0 in H. Qed.

Lemma round2_pos (x : Q) : 0 < round2 x -> 0 < x.
Proof.
  intros Hpos. apply Qnot_le_lt. intros Hle.
  apply round2_mono in Hle. rewrite round2_0 in Hle. lra.
Qed.

#[global] Instance Qltb_comp : Proper (Qeq ==> Qeq ==> eq) Qltb.
Proof. intros x x' Hx y y' Hy. unfold Qltb. now rewrite Hx, Hy. Qed.

(** ** The tier scan *)

Lemma selected_threshold_Some (percent : Q) (ths : list Z) (b : Z) :
  selected_threshold percent ths = Some b ->
  exists before after,
    ths = before ++ b :: after /\ inject_Z b <= percent /\
    Forall (fun t => percent < inject_Z t) before.
Proof.
  induction ths as [| t rest IH]; simpl; [discriminate |].
  destruct (Qle_bool (inject_Z t) percent) eqn:E.
  - intros [= ->]. exists [], rest. apply Qle_bool_iff in E. auto.
  - intros H. destruct (IH H) as (before & after & -> & Hle & Hall).
    exists (t :: before), after. apply Qle_bool_gt in E. auto.
Qed.

Lemma selected_threshold_None (percent : Q) (ths : list Z) :
  selected_threshold percent ths = None ->
  Forall (fun t => percent < inject_Z t) ths.
Proof.
  induction ths as [| t rest IH]; simpl; [constructor |].
  destruct (Qle_bool (inject_Z t) percent) eqn:E; [discriminate |].
  intros H. apply Qle_bool_gt in E. auto.
Qed.

(** On a descending list the first boundary at or below the percentage
    is the highest one. *)
Lemma selected_threshold_highest (percent : Q) (ths : list Z) (b : Z) :
  StronglySorted Z.gt ths ->
  selected_threshold percent ths = Some b ->
  b ∈ ths /\ inject_Z b <= percent /\
  forall b', b' ∈ ths -> inject_Z b' <= percent -> (b' <= b)%Z.
Proof.
  intros Hsorted Hsel.
  destruct (selected_threshold_Some _ _ _ Hsel) as (before & after & -> & Hle & Hall).
  split; [set_solver |]. split; [exact Hle |].
  intros b' Hin Hb'.
  apply elem_of_app in Hin as [Hin | Hin].
  - rewrite Forall_forall in Hall. specialize (Hall _ Hin). lra.
  - apply elem_of_cons in Hin as [-> | Hin]; [lia |].
    apply StronglySorted_app_1_r in Hsorted.
    apply StronglySorted_inv in Hsorted as [_ Hlt].
    rewrite Forall_forall in Hlt. specialize (Hlt _ Hin). lia.
Qed.

Section TierScan.

Variable multipliers : gmap Z Q.
Variable max_points : Q.

Lemma tier_scan_selected (percent : Q) (ths : list Z) :
  tier_scan multipliers max_points percent ths =
  match selected_threshold percent ths with
  | Some t => round2 (max_points * default 0 (multipliers !! t))
  | None => 0
  end.
Proof.
  induction ths as [| t rest IH]; simpl; [reflexivity |].
  destruct (Qle_bool (inject_Z t) percent); [reflexivity | exact IH].
Qed.

Hypothesis max_points_nonneg : 0 <= max_points.

Lemma tier_scan_bounds (percent : Q) (ths : list Z) :
  Forall (fun t => 0 <= default 0 (multipliers !! t) <= 1) ths ->
  0 <= tier_scan multipliers max_points percent ths <= round2 max_points.
Proof.
  intros Hall. rewrite tier_scan_selected.
  destruct (selected_threshold percent ths) as [b |] eqn:Hsel.
  - destruct (selected_threshold_Some _ _ _ Hsel) as (before & after & -> & _ & _).
    apply Forall_app in Hall as [_ Hall]. apply Forall_cons in Hall as [Hb _].
    split.
    + apply round2_nonneg. apply Qmult_le_0_compat; tauto.
    + apply round2_mono. nra.
  - split; [apply Qle_refl | now apply round2_nonneg].
Qed.

Lemma tier_scan_mono (p1 p2 : Q) (ths : list Z) :
  Forall (fun t => 0 <= default 0 (multipliers !! t)) ths ->
  StronglySorted
    (fun hi lo => default 0 (multipliers !! lo) <= default 0 (multipliers !! hi))
    ths ->
  p1 <= p2 ->
  tier_scan multipliers max_points p1 ths <= tier_scan multipliers max_points p2 ths.
Proof.
  intros Hnonneg Hsorted Hp.
  induction ths as [| t rest IH]; simpl; [apply Qle_refl |].
  apply Forall_cons in Hnonneg as [Ht Hrest].
  apply StronglySorted_inv in Hsorted as [Hsorted Hbelow].
  destruct (Qle_bool (inject_Z t) p2) eqn:E2.
  - destruct (Qle_bool (inject_Z t) p1) eqn:E1; [apply Qle_refl |].
    rewrite tier_scan_selected.
    destruct (selected_threshold p1 rest) as [b |] eqn:Hsel.
    + destruct (selected_threshold_Some _ _ _ Hsel) as (before & after & -> & _ & _).
      apply Forall_app in Hbelow as [_ Hbelow].
      apply Forall_cons in Hbelow as [Hb _].
      apply round2_mono. nra.
    + apply round2_nonneg. apply Qmult_le_0_compat; assumption.
  - apply Qle_bool_gt in E2.
    assert (E1 : Qle_bool (inject_Z t) p1 = false) by (apply Qle_bool_gt; lra).
    rewrite E1. auto.
Qed.

End TierScan.

(** ** Lookups in declaration-order dictionaries *)

Lemma dict_get_Some_elem_of {V : Type} (k : string) (v : V) (d : list (string * V)) :
  dict_get k d = Some v -> (k, v) ∈ d.
Proof.
  induction d as [| [k' v'] d IH]; simpl; [discriminate |].
  destruct (String.eqb_spec k k') as [-> | _].
  - intros [= ->]. apply list_elem_of_here.
  - intros H. apply list_elem_of_further. auto.
Qed.

Lemma dict_get_elem_of_is_Some {V : Type} (k : string) (v : V) (d : list (string * V)) :
  (k, v) ∈ d -> is_Some (dict_get k d).
Proof.
  induction d as [| [k' v'] d IH]; simpl; [intros H; inversion H |].
  destruct (String.eqb_spec k k') as [-> | NE]; [eauto |].
  intros H. apply elem_of_cons in H as [[= -> ->] | H]; [congruence | auto].
Qed.

(** ** The configured metrics *)

Lemma metric_profiles :
  Forall (fun kv => metric_profile kv.1 kv.2) METRIC_MAX_POINTS.
Proof.
  unfold METRIC_MAX_POINTS.
  repeat first [ apply Forall_nil_2 | apply Forall_cons_2 ];
    (split; cbn [fst snd];
     [ reflexivity | discriminate | reflexivity
     | table_entries | table_entries | table_entries ]).
Qed.

Lemma known_metric_profile (metric_name : string) (max_points : Q) :
  dict_get metric_name METRIC_MAX_POINTS = Some max_points ->
  metric_profile metric_name max_points.
Proof.
  intros H. apply dict_get_Some_elem_of in H.
  pose proof metric_profiles as Hall. rewrite Forall_forall in Hall.
  exact (Hall _ H).
Qed.

Lemma THRESHOLDS_descending : StronglySorted Z.gt THRESHOLDS.
Proof.
  unfold THRESHOLDS.
  repeat first [ apply Forall_nil_2 | apply Forall_cons_2 | apply SSorted_nil
               | apply SSorted_cons ]; reflexivity.
Qed.

Lemma THRESHOLDS_floor (percent : Q) :
  50 <= percent -> is_Some (selected_threshold percent THRESHOLDS).
Proof.
  intros H. destruct (selected_threshold percent THRESHOLDS) eqn:E; [eauto |].
  apply selected_threshold_None in E. rewrite Forall_forall in E.
  assert (Hin : 50%Z ∈ THRESHOLDS) by (unfold THRESHOLDS; set_solver).
  specialize (E _ Hin). change (inject_Z 50) with 50 in E. lra.
Qed.

(** ** Scoring one metric *)

Lemma percent_to_points_known (metric_name : string) (max_points percent : Q) :
  dict_get metric_name METRIC_MAX_POINTS = Some max_points ->
  percent_to_points config metric_name (Some percent) =
  Ok (if Qltb percent 50 then 0
      else tier_scan (multipliers_of config metric_name) max_points percent
             THRESHOLDS).
Proof.
  intros Hmax. destruct (known_metric_profile _ _ Hmax) as [Hgate _ _ _ _ _].
  unfold percent_to_points. change (metric_max_points config) with METRIC_MAX_POINTS.
  rewrite Hmax, Hgate. change (thresholds config) with THRESHOLDS.
  cbv beta zeta. rewrite andb_true_r.
  destruct (Qltb percent 50); reflexivity.
Qed.

(** C10.  With an absent percentage [percent_to_points] returns 0 points
    for every metric identifier and every configuration, known or not:
    the check for [None] comes before the lookup of the identifier.  An
    identifier outside [METRIC_MAX_POINTS] raises [KeyError] only once a
    percentage is present. *)
Theorem percent_to_points_absent (cfg : Config) (metric_name : string) :
  percent_to_points cfg metric_name None = Ok 0 /\
  (dict_get metric_name (metric_max_points cfg) = None ->
   forall percent,
     percent_to_points cfg metric_name (Some percent) =
     Raise (KeyError ("Unknown metric: " +:+ metric_name))).
Proof.
  split; [reflexivity |].
  intros Hunknown percent. unfold percent_to_points. now rewrite Hunknown.
Qed.

(** C2.  For a metric of [METRIC_MAX_POINTS]: no percentage gives 0
    points; a percentage below 50 gives 0 points when the metric's rule
    does not allow scoring below 50; any other percentage gives
    [round(max_points * m, 2)], where [m] is the multiplier the metric's
    map holds for the highest threshold at or below the percentage, the
    threshold the descending scan stops at.  A 5-point metric under
    [FIVE_POINT_MULTIPLIERS] at 83 percent stops at 80, multiplier 1, and
    earns 5 points. *)
Theorem percent_to_points_tiers (metric_name : string) (max_points : Q) :
  dict_get metric_name METRIC_MAX_POINTS = Some max_points ->
  percent_to_points config metric_name None = Ok 0 /\
  (forall percent,
     percent < 50 -> allow_below_50_of config metric_name = false ->
     percent_to_points config metric_name (Some percent) = Ok 0) /\
  (forall percent,
     ~ (percent < 50 /\ allow_below_50_of config metric_name = false) ->
     exists b m,
       selected_threshold percent THRESHOLDS = Some b /\
       b ∈ THRESHOLDS /\ inject_Z b <= percent /\
       (forall b', b' ∈ THRESHOLDS -> inject_Z b' <= percent -> (b' <= b)%Z) /\
       multipliers_of config metric_name !! b = Some m /\
       percent_to_points config metric_name (Some percent) =
       Ok (round2 (max_points * m))) /\
  (max_points == 5 ->
   multipliers_of config metric_name = FIVE_POINT_MULTIPLIERS ->
   selected_threshold 83 THRESHOLDS = Some 80%Z /\
   FIVE_POINT_MULTIPLIERS !! 80%Z = Some 1 /\
   percent_to_points config metric_name (Some 83) = Ok 5).
Proof.
  intros Hmax.
  destruct (known_metric_profile _ _ Hmax) as [Hgate _ _ Hcov _ _].
  split; [reflexivity |]. split; [| split].
  - intros percent Hlt _. rewrite (percent_to_points_known _ _ _ Hmax).
    apply Qltb_lt in Hlt. now rewrite Hlt.
  - intros percent Hnot.
    assert (Hge : 50 <= percent).
    { apply Qnot_lt_le. intros Hlt. apply Hnot. auto. }
    destruct (THRESHOLDS_floor _ Hge) as [b Hsel].
    destruct (selected_threshold_highest percent THRESHOLDS b THRESHOLDS_descending Hsel)
      as (Hin & Hle & Hhigh).
    rewrite Forall_forall in Hcov. destruct (Hcov _ Hin) as [m Hm].
    exists b, m. repeat split; try assumption.
    rewrite (percent_to_points_known _ _ _ Hmax).
    apply Qltb_ge in Hge. rewrite Hge, tier_scan_selected, Hsel, Hm.
    reflexivity.
  - intros Hfive Hmap. split; [reflexivity |]. split; [reflexivity |].
    rewrite (percent_to_points_known _ _ _ Hmax), Hmap.
    change (Qltb 83 50) with false. cbv iota.
    rewrite tier_scan_selected.
    change (selected_threshold 83 THRESHOLDS) with (Some 80%Z).
    change (FIVE_POINT_MULTIPLIERS !! 80%Z) with (Some 1).
    simpl default. f_equal.
    transitivity (round2 5); [| reflexivity].
    apply round2_comp. rewrite Hfive. reflexivity.
Qed.

Lemma percent_to_points_tiers_witness :
  percent_to_points config "protection_pct" (Some 83) = Ok 5.
Proof.
  refine (proj2 (proj2 (proj2 (proj2 (proj2
    (percent_to_points_tiers "protection_pct" 5 _))) _ _))).
  - reflexivity.
  - reflexivity.
  - reflexivity.
Defined.

(** The range of one score. *)
Lemma percent_to_points_range (metric_name : string) (max_points : Q)
    (percent : option Q) :
  dict_get metric_name METRIC_MAX_POINTS = Some max_points ->
  exists v,
    percent_to_points config metric_name percent = Ok v /\ 0 <= v <= max_points.
Proof.
  intros Hmax.
  destruct (known_metric_profile _ _ Hmax) as [_ Hnonneg Hround _ Hunit _].
  destruct percent as [percent |].
  - rewrite (percent_to_points_known _ _ _ Hmax). eexists. split; [reflexivity |].
    destruct (Qltb percent 50); [split; [apply Qle_refl | assumption] |].
    destruct (tier_scan_bounds (multipliers_of config metric_name) max_points
                Hnonneg percent THRESHOLDS Hunit) as [Hlo Hhi].
    split; [exact Hlo |]. rewrite Hround in Hhi. exact Hhi.
  - exists 0. split; [reflexivity |]. split; [apply Qle_refl | assumption].
Qed.

(** C8.  For a metric of [METRIC_MAX_POINTS], whose multiplier map does
    not decrease with the threshold, a higher percentage never earns
    fewer points. *)
Theorem percent_to_points_monotone (metric_name : string) (max_points p1 p2 : Q) :
  dict_get metric_name METRIC_MAX_POINTS = Some max_points ->
  p1 <= p2 ->
  exists v1 v2,
    percent_to_points config metric_name (Some p1) = Ok v1 /\
    percent_to_points config metric_name (Some p2) = Ok v2 /\
    v1 <= v2.
Proof.
  intros Hmax Hle.
  destruct (known_metric_profile _ _ Hmax) as [_ Hnonneg _ _ Hunit Hmono].
  rewrite !(percent_to_points_known _ _ _ Hmax).
  eexists _, _. split; [reflexivity |]. split; [reflexivity |].
  destruct (Qltb p1 50) eqn:E1.
  - destruct (Qltb p2 50); [apply Qle_refl |].
    now apply tier_scan_bounds.
  - apply Qltb_ge in E1.
    assert (E2 : Qltb p2 50 = false) by (apply Qltb_ge; lra).
    rewrite E2. apply tier_scan_mono; try assumption.
    eapply Forall_impl; [exact Hunit |]. simpl. tauto.
Qed.

Lemma percent_to_points_monotone_witness :
  exists v1 v2,
    percent_to_points config "csat_pct" (Some 55) = Ok v1 /\
    percent_to_points config "csat_pct" (Some 75) = Ok v2 /\
    v1 <= v2.
Proof.
  apply (percent_to_points_monotone "csat_pct" 5 55 75).
  - reflexivity.
  - discriminate.
Defined.

(** C5.  [percent_to_points] raises exactly when a percentage is present
    and the metric identifier is not a key of [METRIC_MAX_POINTS]; what it
    raises is the [KeyError] naming the metric, and nothing is returned
    beside it.  A multiplier map that lacks the threshold the scan stops
    at is no error: the multiplier is read as 0 and the metric earns 0
    points. *)
Theorem percent_to_points_failure (cfg : Config) (metric_name : string)
    (percent : option Q) :
  (forall e,
     percent_to_points cfg metric_name percent = Raise e <->
     is_Some percent /\
     dict_get metric_name (metric_max_points cfg) = None /\
     e = KeyError ("Unknown metric: " +:+ metric_name)) /\
  (forall p max_points b,
     percent = Some p ->
     dict_get metric_name (metric_max_points cfg) = Some max_points ->
     ~ (p < 50 /\ allow_below_50_of cfg metric_name = false) ->
     selected_threshold p (thresholds cfg) = Some b ->
     multipliers_of cfg metric_name !! b = None ->
     percent_to_points cfg metric_name percent = Ok 0).
Proof.
  split.
  - intros e. unfold percent_to_points.
    destruct percent as [p |].
    + destruct (dict_get metric_name (metric_max_points cfg)) as [mx |].
      * destruct (Qltb p 50 && negb (allow_below_50_of cfg metric_name));
          split; [discriminate | intros (_ & [=] & _)
                 | discriminate | intros (_ & [=] & _)].
      * split; [intros [= <-]; eauto | intros (_ & _ & ->); reflexivity].
    + split; [discriminate | intros ([? [=]] & _)].
  - intros p mx b -> Hmax Hgate Hsel Hmissing.
    unfold percent_to_points. rewrite Hmax.
    destruct (Qltb p 50 && negb (allow_below_50_of cfg metric_name)) eqn:E;
      [reflexivity |].
    rewrite tier_scan_selected, Hsel, Hmissing. simpl default.
    f_equal. transitivity (round2 0); [| reflexivity].
    apply round2_comp. ring.
Qed.

(** C5 as stated fails twice over: an identifier outside
    [METRIC_MAX_POINTS] scored without a percentage returns 0 points, and
    so does ["protection_pct"] at 83 percent under a map without the
    threshold 80 the scan stops at. *)
Lemma percent_to_points_failure_counterexample :
  (dict_get "bonus_pct" METRIC_MAX_POINTS = None /\
   percent_to_points config "bonus_pct" None = Ok 0) /\
  (selected_threshold 83 (thresholds config_without_80) = Some 80%Z /\
   multipliers_of config_without_80 "protection_pct" !! 80%Z = None /\
   percent_to_points config_without_80 "protection_pct" (Some 83) = Ok 0).
Proof. repeat split; reflexivity. Qed.

(** ** Pacing *)



(** ** Scoring a record *)

Section FillPoints.

Variable cfg : Config.

Lemma percent_to_points_total (metric_name : string) (percent : option Q) :
  is_Some (dict_get metric_name (metric_max_points cfg)) ->
  exists v, percent_to_points cfg metric_name percent = Ok v.
Proof.
  intros [mx Hmx]. unfold percent_to_points. rewrite Hmx.
  destruct percent as [p |]; [| eauto].
  destruct (Qltb p 50 && negb (allow_below_50_of cfg metric_name)); eauto.
Qed.

(** The loop leaves, under each metric's points key, the score of that
    metric's reading, and touches no other key. *)
Lemma fill_points_spec (d : gmap string (option Q)) (items : list (string * Q)) :
  Forall (fun kv => is_Some (dict_get kv.1 (metric_max_points cfg))) items ->
  NoDup ((fun kv => replace "_pct" "_points" kv.1) <$> items) ->
  forall points0 : gmap string Q,
  exists points : gmap string Q,
    fill_points cfg d items points0 = Ok points /\
    (forall kv, kv ∈ items ->
       exists v,
         percent_to_points cfg kv.1 (data_get d kv.1) = Ok v /\
         points !! replace "_pct" "_points" kv.1 = Some v) /\
    (forall key,
       key ∉ (fun kv => replace "_pct" "_points" kv.1) <$> items ->
       points !! key = points0 !! key).
Proof.
  induction items as [| [metric_name mx] rest IH]; intros Hknown Hdup points0.
  - exists points0. split; [reflexivity |]. split; [| reflexivity].
    intros kv Hin. inversion Hin.
  - apply Forall_cons in Hknown as [Hhead Hknown].
    rewrite fmap_cons in Hdup. apply NoDup_cons in Hdup as [Hfresh Hdup].
    cbn [fst] in Hhead, Hfresh.
    destruct (percent_to_points_total metric_name (data_get d metric_name) Hhead)
      as [v Hv].
    destruct (IH Hknown Hdup (<[replace "_pct" "_points" metric_name := v]> points0))
      as (points & Hfill & Hitems & Hother).
    exists points. cbn [fill_points]. rewrite Hv.
    split; [exact Hfill |]. split.
    + intros kv Hin. apply elem_of_cons in Hin as [-> | Hin]; [| auto].
      exists v. split; [exact Hv |]. cbn [fst].
      rewrite (Hother _ Hfresh). apply lookup_insert_eq.
    + intros key Hkey. rewrite fmap_cons in Hkey.
      apply not_elem_of_cons in Hkey as [Hne Hkey]. cbn [fst] in Hne.
      rewrite (Hother _ Hkey). apply lookup_insert_ne. congruence.
Qed.

(** The loop reads the record at the metrics it is given only. *)
Lemma fill_points_ext (d d' : gmap string (option Q)) (items : list (string * Q)) :
  Forall (fun kv => data_get d kv.1 = data_get d' kv.1) items ->
  forall points0, fill_points cfg d items points0 = fill_points cfg d' items points0.
Proof.
  induction items as [| [metric_name mx] rest IH]; intros Hsame points0;
    [reflexivity |].
  apply Forall_cons in Hsame as [Hhead Hsame]. simpl in *. rewrite Hhead.
  destruct (percent_to_points cfg metric_name (data_get d' metric_name));
    simpl; auto.
Qed.

End FillPoints.

Lemma METRIC_MAX_POINTS_known :
  Forall (fun kv => is_Some (dict_get kv.1 METRIC_MAX_POINTS)) METRIC_MAX_POINTS.
Proof.
  apply Forall_forall. intros [k v] Hin. exact (dict_get_elem_of_is_Some _ _ _ Hin).
Qed.

Lemma points_keys_NoDup :
  NoDup ((fun kv : string * Q => replace "_pct" "_points" kv.1) <$> METRIC_MAX_POINTS).
Proof. apply (bool_decide_unpack _). vm_compute. exact I. Qed.

Lemma METRIC_MAX_POINTS_not_htp (d : gmap string (option Q)) (htp : option Q) :
  Forall (fun kv : string * Q => data_get d kv.1 = data_get (<["htp_pct" := htp]> d) kv.1)
    METRIC_MAX_POINTS.
Proof.
  unfold METRIC_MAX_POINTS, data_get.
  repeat first [ apply Forall_nil_2 | apply Forall_cons_2 ];
    cbn [fst]; rewrite lookup_insert_ne by discriminate; reflexivity.
Qed.

(** What [compute_points] returns, in terms of the filled dictionary
    [base] of unadjusted scores. *)
Lemma compute_points_base (record : Record) :
  exists base : gmap string Q,
    fill_points config (data record) METRIC_MAX_POINTS ∅ = Ok base /\
    (forall metric_name max_points,
       dict_get metric_name METRIC_MAX_POINTS = Some max_points ->
       exists v,
         percent_to_points config metric_name (data_get (data record) metric_name)
         = Ok v /\
         base !! replace "_pct" "_points" metric_name = Some v) /\
    compute_points config record =
    Ok (match data_get (data record) "htp_pct" with
        | Some htp =>
            if Qltb htp (13 # 2)
            then <["protection_points" :=
                     round2 (default 0 (base !! "protection_points") / 2)]> base
            else base
        | None => base
        end).
Proof.
  destruct (fill_points_spec config (data record) METRIC_MAX_POINTS
              METRIC_MAX_POINTS_known points_keys_NoDup ∅)
    as (base & Hfill & Hitems & _).
  exists base. split; [exact Hfill |]. split.
  - intros metric_name max_points Hmax.
    apply dict_get_Some_elem_of in Hmax. exact (Hitems _ Hmax).
  - unfold compute_points. change (metric_max_points config) with METRIC_MAX_POINTS.
    rewrite Hfill. simpl.
    destruct (data_get (data record) "htp_pct") as [htp |]; [| reflexivity].
    destruct (Qltb htp (13 # 2)); reflexivity.
Qed.

Lemma protection_points_key :
  Forall (fun kv : string * Q =>
            kv.1 = "protection_pct" \/
            replace "_pct" "_points" kv.1 <> "protection_points")
    METRIC_MAX_POINTS.
Proof.
  unfold METRIC_MAX_POINTS.
  repeat first [ apply Forall_nil_2 | apply Forall_cons_2 ];
    cbn [fst]; first [ left; reflexivity | right; vm_compute; discriminate ].
Qed.

(** C3.  In the result of [compute_points], the protection points are
    the tier score of ["protection_pct"] halved and rounded again to two
    decimals when ["htp_pct"] is present and below 6.5, and that tier
    score as it is when ["htp_pct"] is absent or at least 6.5: the halving
    happens once, on the score already looked up.  Every other metric
    keeps its own tier score, and changing ["htp_pct"] changes no entry
    but the protection points. *)
Theorem compute_points_htp_rule (record : Record) :
  exists (points : gmap string Q) (unadjusted : Q),
    compute_points config record = Ok points /\
    percent_to_points config "protection_pct"
      (data_get (data record) "protection_pct") = Ok unadjusted /\
    (forall htp,
       data_get (data record) "htp_pct" = Some htp -> htp < 13 # 2 ->
       points !! "protection_points" = Some (round2 (unadjusted / 2))) /\
    (data_get (data record) "htp_pct" = None \/
     (exists htp, data_get (data record) "htp_pct" = Some htp /\ 13 # 2 <= htp) ->
     points !! "protection_points" = Some unadjusted) /\
    (forall metric_name max_points,
       dict_get metric_name METRIC_MAX_POINTS = Some max_points ->
       metric_name <> "protection_pct" ->
       exists v,
         percent_to_points config metric_name (data_get (data record) metric_name)
         = Ok v /\
         points !! replace "_pct" "_points" metric_name = Some v) /\
    (forall htp' : option Q,
       exists points' : gmap string Q,
         compute_points config
           (MkRecord (<["htp_pct" := htp']> (data record)) (date record)
              (errors record)) = Ok points' /\
         forall key, key <> "protection_points" -> points' !! key = points !! key).
Proof.
  destruct (compute_points_base record) as (base & Hfill & Hbase & Hpoints).
  destruct (Hbase "protection_pct" 5 eq_refl) as (unadjusted & Hscore & Hlookup).
  change (replace "_pct" "_points" "protection_pct") with "protection_points"
    in Hlookup.
  eexists _, unadjusted. split; [exact Hpoints |]. split; [exact Hscore |].
  split; [| split; [| split]].
  - intros htp Hhtp Hlow. rewrite Hhtp.
    apply Qltb_lt in Hlow. rewrite Hlow, Hlookup. apply lookup_insert_eq.
  - intros [Habsent | (htp & Hhtp & Hhigh)].
    + rewrite Habsent. exact Hlookup.
    + rewrite Hhtp. apply Qltb_ge in Hhigh. rewrite Hhigh. exact Hlookup.
  - intros metric_name max_points Hmax Hother.
    destruct (Hbase _ _ Hmax) as (v & Hv & Hkey).
    exists v. split; [exact Hv |].
    assert (Hne : "protection_points" <> replace "_pct" "_points" metric_name).
    { pose proof protection_points_key as Hall. rewrite Forall_forall in Hall.
      specialize (Hall _ (dict_get_Some_elem_of _ _ _ Hmax)). cbn [fst] in Hall.
      destruct Hall as [? | ?]; [contradiction | congruence]. }
    destruct (data_get (data record) "htp_pct") as [htp |]; [| exact Hkey].
    destruct (Qltb htp (13 # 2)); [| exact Hkey].
    rewrite lookup_insert_ne by exact Hne. exact Hkey.
  - intros htp'.
    destruct (compute_points_base
                (MkRecord (<["htp_pct" := htp']> (data record)) (date record)
                   (errors record))) as (base' & Hfill' & _ & Hpoints').
    cbn [data] in Hfill', Hpoints'.
    rewrite <- (fill_points_ext config _ _ _
                  (METRIC_MAX_POINTS_not_htp (data record) htp')), Hfill in Hfill'.
    injection Hfill' as <-.
    eexists. split; [exact Hpoints' |].
    intros key Hkey.
    assert (Hins : forall x : Q, <["protection_points" := x]> base !! key = base !! key).
    { intros x. apply lookup_insert_ne. congruence. }
    destruct (data_get (<["htp_pct" := htp']> (data record)) "htp_pct") as [h' |];
      destruct (data_get (data record) "htp_pct") as [h |];
      repeat match goal with |- context [Qltb ?a ?b] => destruct (Qltb a b) end;
      rewrite ?Hins; reflexivity.
Qed.

(** C7.  For a metric of [METRIC_MAX_POINTS], whatever the percentage
    and whatever ["htp_pct"] holds, the points [percent_to_points] returns
    and the metric's entry in the result of [compute_points] are both
    between 0 and the metric's maximum. *)
Theorem points_within_maximum (metric_name : string) (max_points : Q) :
  dict_get metric_name METRIC_MAX_POINTS = Some max_points ->
  (forall percent : option Q,
     exists v,
       percent_to_points config metric_name percent = Ok v /\
       0 <= v <= max_points) /\
  (forall record : Record,
     exists (points : gmap string Q) (v : Q),
       compute_points config record = Ok points /\
       points !! replace "_pct" "_points" metric_name = Some v /\
       0 <= v <= max_points).
Proof.
  intros Hmax. split.
  - intros percent. exact (percent_to_points_range _ _ percent Hmax).
  - intros record.
    destruct (compute_points_base record) as (base & _ & Hbase & Hpoints).
    destruct (Hbase _ _ Hmax) as (v & Hv & Hkey).
    destruct (percent_to_points_range _ _ (data_get (data record) metric_name) Hmax)
      as (v' & Hv' & Hrange).
    rewrite Hv in Hv'. injection Hv' as <-.
    destruct (known_metric_profile _ _ Hmax) as [_ _ Hround _ _ _].
    rewrite Hpoints.
    destruct (data_get (data record) "htp_pct") as [htp |];
      [destruct (Qltb htp (13 # 2)) |];
      [| exists base, v; auto | exists base, v; auto].
    destruct (decide ("protection_points" = replace "_pct" "_points" metric_name))
      as [E | NE].
    + rewrite <- E in *. rewrite Hkey. simpl default.
      eexists _, _. split; [reflexivity |].
      split; [apply lookup_insert_eq |].
      change (v / 2) with (v * (1 # 2)). split.
      * apply round2_nonneg. lra.
      * rewrite <- Hround. apply round2_mono. lra.
    + eexists _, v. split; [reflexivity |]. split; [| exact Hrange].
      rewrite lookup_insert_ne by exact NE. exact Hkey.
Qed.

Lemma points_within_maximum_witness :
  (exists v,
     percent_to_points config "protection_pct" (Some 83) = Ok v /\ 0 <= v <= 5) /\
  (exists (points : gmap string Q) (v : Q),
     compute_points config sample = Ok points /\
     points !! replace "_pct" "_points" "protection_pct" = Some v /\
     0 <= v <= 5).
Proof.
  pose proof (points_within_maximum "protection_pct" 5 eq_refl) as [Hone Hrecord].
  exact (conj (Hone (Some 83)) (Hrecord sample)).
Defined.

(** ** Sorting the recommendations *)

Lemma insert_by_gain_perm (x : Recommendation) (l : list Recommendation) :
  insert_by_gain x l ≡ₚ x :: l.
Proof.
  induction l as [| y l IH]; simpl; [reflexivity |].
  destruct (Qltb (point_gain x) (point_gain y)); [| reflexivity].
  rewrite IH. apply Permutation_swap.
Qed.

Lemma sort_by_gain_reverse_perm (l : list Recommendation) :
  sort_by_gain_reverse l ≡ₚ l.
Proof.
  induction l as [| x l IH]; simpl; [reflexivity |].
  rewrite insert_by_gain_perm. now rewrite IH.
Qed.

Lemma insert_by_gain_sorted (x : Recommendation) (l : list Recommendation) :
  StronglySorted gain_ge l -> StronglySorted gain_ge (insert_by_gain x l).
Proof.
  induction 1 as [| y l Hsorted IH Hall]; simpl.
  - repeat constructor.
  - destruct (Qltb (point_gain x) (point_gain y)) eqn:E.
    + apply Qltb_lt in E. constructor; [exact IH |].
      rewrite insert_by_gain_perm. constructor; [| exact Hall].
      unfold gain_ge. lra.
    + apply Qltb_ge in E. constructor; [now constructor |].
      constructor; [exact E |].
      eapply Forall_impl; [exact Hall |]. unfold gain_ge. intros z Hz. lra.
Qed.

Lemma sort_by_gain_reverse_sorted (l : list Recommendation) :
  StronglySorted gain_ge (sort_by_gain_reverse l).
Proof.
  induction l as [| x l IH]; simpl; [constructor |].
  now apply insert_by_gain_sorted.
Qed.

(** Stability: among the elements of one gain, the order is the one
    before sorting. *)
Lemma insert_by_gain_stable (g : Q) (x : Recommendation) (l : list Recommendation) :
  filter (fun r => point_gain r == g) (insert_by_gain x l) =
  filter (fun r => point_gain r == g) (x :: l).
Proof.
  induction l as [| y l IH]; simpl; [reflexivity |].
  destruct (Qltb (point_gain x) (point_gain y)) eqn:E; [| reflexivity].
  apply Qltb_lt in E. rewrite filter_cons, IH, !filter_cons.
  destruct (decide (point_gain y == g)) as [Hy | Hy];
    destruct (decide (point_gain x == g)) as [Hx | Hx];
    try reflexivity.
  exfalso. rewrite Hx, Hy in E. exact (Qlt_irrefl _ E).
Qed.

Lemma sort_by_gain_reverse_stable (g : Q) (l : list Recommendation) :
  filter (fun r => point_gain r == g) (sort_by_gain_reverse l) =
  filter (fun r => point_gain r == g) l.
Proof.
  induction l as [| x l IH]; simpl; [reflexivity |].
  rewrite insert_by_gain_stable, !filter_cons, IH. reflexivity.
Qed.

(** ** Building the plan *)

Lemma find_next_threshold_Some (allow : bool) (percent : Q)
    (ths : list Z) (t : Z) :
  find_next_threshold allow percent ths = Some t ->
  t ∈ ths /\ percent < inject_Z t /\ ((50 <= t)%Z \/ allow = true).
Proof.
  induction ths as [| t' rest IH]; simpl; [discriminate |].
  destruct (Qle_bool (inject_Z t') percent) eqn:E1.
  { intros H. destruct (IH H) as (? & ? & ?).
    split; [now apply list_elem_of_further | auto]. }
  destruct ((t' <? 50)%Z && negb allow) eqn:E2.
  { intros H. destruct (IH H) as (? & ? & ?).
    split; [now apply list_elem_of_further | auto]. }
  intros [= ->]. apply Qle_bool_gt in E1.
  split; [apply list_elem_of_here |]. split; [exact E1 |].
  apply andb_false_iff in E2 as [E2 | E2].
  - left. apply Z.ltb_ge in E2. exact E2.
  - right. now destruct allow.
Qed.

(** Below 125 percent the search stops at once, at 125. *)
Lemma find_next_threshold_top (allow : bool) (percent : Q) :
  percent < 125 -> find_next_threshold allow percent THRESHOLDS = Some 125%Z.
Proof.
  intros H. simpl.
  assert (E : Qle_bool (inject_Z 125) percent = false) by (apply Qle_bool_gt; exact H).
  rewrite E. reflexivity.
Qed.

(** [lowest_reachable_boundary] is what its name says: a boundary of the
    list above the percentage that passes the gate, below every other
    such boundary; and there is none when it returns [None]. *)
Lemma lowest_reachable_boundary_lowest (allow : bool) (percent : Q) (ths : list Z) :
  let passes t :=
    Qltb percent (inject_Z t) && ((50 <=? t)%Z || allow) = true in
  match lowest_reachable_boundary allow percent ths with
  | Some b => b ∈ ths /\ passes b /\ forall t, t ∈ ths -> passes t -> (b <= t)%Z
  | None => forall t, t ∈ ths -> ~ passes t
  end.
Proof.
  intros passes. induction ths as [| t' rest IH]; simpl.
  { intros t Ht. inversion Ht. }
  fold (lowest_reachable_boundary allow percent rest).
  destruct (Qltb percent (inject_Z t') && ((50 <=? t')%Z || allow)) eqn:E.
  - destruct (lowest_reachable_boundary allow percent rest) as [l |].
    + destruct IH as (Hin & Hl & Hlow).
      split; [| split].
      * destruct (Z.min_spec t' l) as [[_ ->] | [_ ->]];
          [apply list_elem_of_here | now apply list_elem_of_further].
      * destruct (Z.min_spec t' l) as [[_ ->] | [_ ->]]; assumption.
      * intros t Ht Hpt. apply elem_of_cons in Ht as [-> | Ht]; [lia |].
        specialize (Hlow t Ht Hpt). lia.
    + split; [apply list_elem_of_here |]. split; [exact E |].
      intros t Ht Hpt. apply elem_of_cons in Ht as [-> | Ht]; [lia |].
      destruct (IH t Ht Hpt).
  - destruct (lowest_reachable_boundary allow percent rest) as [l |].
    + destruct IH as (Hin & Hl & Hlow).
      split; [now apply list_elem_of_further |]. split; [exact Hl |].
      intros t Ht Hpt. apply elem_of_cons in Ht as [-> | Ht]; [| auto].
      unfold passes in Hpt. congruence.
    + intros t Ht Hpt. apply elem_of_cons in Ht as [-> | Ht].
      * unfold passes in Hpt. congruence.
      * exact (IH t Ht Hpt).
Qed.

Section PlanLemmas.

Variable cfg : Config.
Variables goals current : gmap string Q.
Variables day_of_month days_in_month : Z.

Abbreviation recommend_here :=
  (recommend cfg goals current day_of_month days_in_month).

Lemma recommend_metric (metric_name : string) (r : Recommendation) :
  recommend_here metric_name = Ok (Some r) -> metric r = metric_name.
Proof.
  unfold recommend.
  destruct (goals !! metric_name) as [goal_value |]; [| discriminate].
  destruct (percent_to_points cfg metric_name _) as [current_metric_points |];
    [| discriminate].
  cbn [mbind result_bind].
  destruct (find_next_threshold _ _ _) as [nt |]; [| discriminate].
  destruct (percent_to_points cfg metric_name _) as [next_points |];
    [| discriminate].
  cbn [mbind result_bind].
  destruct (Qle_bool _ 0); [discriminate |].
  destruct (needed_to_target _ _ _ _ _) as [required_more |]; [| discriminate].
  cbn [mbind result_bind]. intros [= <-]. reflexivity.
Qed.

Lemma recommend_Some (metric_name : string) (r : Recommendation) :
  recommend_here metric_name = Ok (Some r) ->
  exists max_points goal_value current_metric_points next_points,
    dict_get metric_name (metric_max_points cfg) = Some max_points /\
    goals !! metric_name = Some goal_value /\
    let current_value := default 0 (current !! metric_name) in
    let percent := percent_of_goal current_value goal_value in
    percent_to_points cfg metric_name (Some percent) = Ok current_metric_points /\
    find_next_threshold (allow_below_50_of cfg metric_name) percent
      (thresholds cfg) = Some (next_threshold r) /\
    percent_to_points cfg metric_name (Some (inject_Z (next_threshold r)))
    = Ok next_points /\
    point_gain r = round2 (Qmax 0 (next_points - current_metric_points)) /\
    0 < point_gain r /\
    needed_to_target current_value goal_value day_of_month days_in_month
      (inject_Z (next_threshold r)) = Ok (needed_more_by_today r).
Proof.
  unfold recommend, percent_of_goal.
  destruct (goals !! metric_name) as [goal_value |]; [| discriminate].
  destruct (percent_to_points cfg metric_name _) as [current_metric_points |]
    eqn:Hcur; [| discriminate].
  cbn [mbind result_bind].
  destruct (find_next_threshold _ _ _) as [nt |] eqn:Hnext; [| discriminate].
  destruct (percent_to_points cfg metric_name (Some (inject_Z nt)))
    as [next_points |] eqn:Hnp; [| discriminate].
  cbn [mbind result_bind].
  destruct (Qle_bool _ 0) eqn:Hgain; [discriminate |].
  destruct (needed_to_target _ _ _ _ _) as [required_more |] eqn:Hneed;
    [| discriminate].
  cbn [mbind result_bind]. intros [= <-]. cbn.
  assert (Hknown : is_Some (dict_get metric_name (metric_max_points cfg))).
  { unfold percent_to_points in Hnp.
    destruct (dict_get metric_name (metric_max_points cfg)); [eauto | discriminate]. }
  destruct Hknown as [max_points Hknown].
  exists max_points, goal_value, current_metric_points, next_points.
  apply Qle_bool_gt in Hgain. auto 10.
Qed.

(** The loop appends, in the order of the items, what [recommend]
    returns for them. *)
Lemma recommend_loop_spec (items : list (string * Q)) :
  forall recs0 recs,
    recommend_loop cfg goals current day_of_month days_in_month items recs0
    = Ok recs ->
    exists emitted,
      recs = recs0 ++ emitted /\
      metric <$> emitted `sublist_of` items.*1 /\
      Forall (fun r => recommend_here (metric r) = Ok (Some r)) emitted.
Proof.
  induction items as [| [metric_name mx] rest IH]; intros recs0 recs; simpl.
  - intros [= <-]. exists []. rewrite app_nil_r. repeat constructor.
  - destruct (recommend cfg goals current day_of_month days_in_month metric_name)
      as [[r |] | e] eqn:Hr; cbn [mbind result_bind]; [| | discriminate].
    + intros Hloop. destruct (IH _ _ Hloop) as (emitted & -> & Hsub & Hall).
      exists (r :: emitted). rewrite <- app_assoc. split; [reflexivity |].
      pose proof (recommend_metric _ _ Hr) as Hm.
      split.
      * rewrite fmap_cons, Hm. now apply sublist_skip.
      * constructor; [| exact Hall]. now rewrite Hm.
    + intros Hloop. destruct (IH _ _ Hloop) as (emitted & -> & Hsub & Hall).
      exists emitted. split; [reflexivity |]. split; [| exact Hall].
      now apply sublist_cons.
Qed.

Lemma calculate_needed_by_date_recommendations (target : Q) (plan : Plan) :
  calculate_needed_by_date cfg goals current day_of_month days_in_month target
  = Ok plan ->
  exists emitted,
    recommendations plan = sort_by_gain_reverse emitted /\
    metric <$> emitted `sublist_of` (metric_max_points cfg).*1 /\
    Forall (fun r => recommend_here (metric r) = Ok (Some r)) emitted.
Proof.
  unfold calculate_needed_by_date.
  destruct (compute_points cfg _) as [current_points |]; [| discriminate].
  cbn [mbind result_bind].
  destruct (recommend_loop cfg goals current day_of_month days_in_month _ [])
    as [recs |] eqn:Hloop; [| discriminate].
  cbn [mbind result_bind]. intros [= <-]. cbn [recommendations].
  destruct (recommend_loop_spec _ _ _ Hloop) as (emitted & -> & Hsub & Hall).
  exists emitted. auto.
Qed.

End PlanLemmas.

(** C1.  At 75 percent of goal the lowest boundary above the current
    percentage is 80, but the search in [calculate_needed_by_date] walks
    [THRESHOLDS] from the top and stops at 125, as it does for every
    percentage below 125: the recommendation names 125 as the next
    threshold and asks for 140 more by day 28 of 28 where reaching 80
    percent takes 14. *)
Theorem next_threshold_is_the_top_one :
  lowest_reachable_boundary (allow_below_50_of config "opps_pct") 75 THRESHOLDS
  = Some 80%Z /\
  find_next_threshold (allow_below_50_of config "opps_pct") 75 THRESHOLDS
  = Some 125%Z /\
  (forall allow percent,
     percent < 125 -> find_next_threshold allow percent THRESHOLDS = Some 125%Z) /\
  calculate_needed_by_date config {["opps_pct" := 280]} {["opps_pct" := 210]}
    28 28 8
  = Ok (MkPlan 8 80 10 70 [MkRecommendation "opps_pct" 75 125 3 140]) /\
  needed_to_target 210 280 28 28 80 = Ok 14%Z.
Proof.
  split; [reflexivity |]. split; [reflexivity |].
  split; [exact find_next_threshold_top |].
  split; vm_compute; reflexivity.
Qed.




(** C9, with the example as the code orders it.  The recommendations of
    a plan are in descending order of point gain, and recommendations of
    equal gain follow the declaration order of their metrics in
    [METRIC_MAX_POINTS].  Gains 3, 5, 5, 1 of A, B, C, D come out as
    B, C, A, D. *)
Theorem recommendations_ranked (goals current : gmap string Q)
    (day_of_month days_in_month : Z) (target : Q) (plan : Plan) :
  calculate_needed_by_date config goals current day_of_month days_in_month target
  = Ok plan ->
  StronglySorted gain_ge (recommendations plan) /\
  (forall g,
     metric <$> filter (fun r => point_gain r == g) (recommendations plan)
     `sublist_of` METRIC_MAX_POINTS.*1) /\
  (forall a b c d,
     point_gain a == 3 -> point_gain b == 5 ->
     point_gain c == 5 -> point_gain d == 1 ->
     sort_by_gain_reverse [a; b; c; d] = [b; c; a; d]).
Proof.
  intros Hplan.
  destruct (calculate_needed_by_date_recommendations _ _ _ _ _ _ _ Hplan)
    as (emitted & -> & Hsub & _).
  split; [apply sort_by_gain_reverse_sorted |]. split.
  - intros g. rewrite sort_by_gain_reverse_stable.
    etransitivity; [| exact Hsub].
    apply fmap_sublist, sublist_filter.
  - intros a b c d Ha Hb Hc Hd.
    assert (Hcd : Qltb (point_gain c) (point_gain d) = false)
      by (rewrite Hc, Hd; reflexivity).
    assert (Hbc : Qltb (point_gain b) (point_gain c) = false)
      by (rewrite Hb, Hc; reflexivity).
    assert (Hab : Qltb (point_gain a) (point_gain b) = true)
      by (rewrite Ha, Hb; reflexivity).
    assert (Hac : Qltb (point_gain a) (point_gain c) = true)
      by (rewrite Ha, Hc; reflexivity).
    assert (Had : Qltb (point_gain a) (point_gain d) = false)
      by (rewrite Ha, Hd; reflexivity).
    cbn [sort_by_gain_reverse foldr insert_by_gain].
    rewrite Hcd. cbn [insert_by_gain]. rewrite Hbc. cbn [insert_by_gain].
    rewrite Hab, Hac, Had. reflexivity.
Qed.

Lemma recommendations_ranked_witness :
  StronglySorted gain_ge (recommendations example_plan) /\
  metric <$> filter (fun r => point_gain r == 5) (recommendations example_plan)
  `sublist_of` METRIC_MAX_POINTS.*1.
Proof.
  assert (Hplan : calculate_needed_by_date config example_goals example_current
                    14 28 8 = Ok example_plan) by (vm_compute; reflexivity).
  pose proof (recommendations_ranked _ _ _ _ _ _ Hplan) as (Hsorted & Hties & _).
  exact (conj Hsorted (Hties 5)).
Defined.

(** C9 as stated fails on its example: the metrics A = ["opps_pct"],
    B = ["protection_pct"], C = ["rate_plan_pct"], D = ["next_up_pct"]
    are declared in this order and gain 3, 5, 5 and 1 points; the plan
    lists them as B, C, A, D, not as B, C, D, A. *)
Lemma recommendations_ranked_counterexample :
  calculate_needed_by_date config example_goals example_current 14 28 8
  = Ok example_plan /\
  (fun r => (metric r, point_gain r)) <$> recommendations example_plan
  = [("protection_pct", 5); ("rate_plan_pct", 5); ("opps_pct", 3);
     ("next_up_pct", 1)] /\
  metric <$> recommendations example_plan
  <> ["protection_pct"; "rate_plan_pct"; "next_up_pct"; "opps_pct"].
Proof.
  split; [vm_compute; reflexivity |]. split; [reflexivity | discriminate].
Qed.

Example points_key_of_rate_plan :
  replace "_pct" "_points" "rate_plan_pct" = "rate_plan_points".
Proof. reflexivity. Qed.

(** The record of the module's [__main__] block. *)
Example sample_power_rank :
  (compute_power_rank <$> (match compute_points config sample with
                           | Ok points => Some points
                           | Raise _ => None
                           end))
  = Some (59 # 2, 59 # 20).
Proof. vm_compute. reflexivity. Qed.

(** * Further properties of the scoring engine *)

Lemma selected_threshold_fixed (percent : Q) (ths : list Z) (b : Z) :
  selected_threshold percent ths = Some b ->
  selected_threshold (inject_Z b) ths = Some b.
Proof.
  intros Hsel.
  destruct (selected_threshold_Some _ _ _ Hsel) as (before & after & -> & Hle & Hall).
  clear Hsel. induction before as [| t before IH]; simpl.
  - assert (E : Qle_bool (inject_Z b) (inject_Z b) = true)
      by (apply Qle_bool_iff, Qle_refl).
    now rewrite E.
  - apply Forall_cons in Hall as [Ht Hall].
    assert (E : Qle_bool (inject_Z t) (inject_Z b) = false)
      by (apply Qle_bool_gt; lra).
    rewrite E. auto.
Qed.

Lemma percent_to_points_le (metric_name : string) (max_points p1 p2 v1 v2 : Q) :
  dict_get metric_name METRIC_MAX_POINTS = Some max_points ->
  p1 <= p2 ->
  percent_to_points config metric_name (Some p1) = Ok v1 ->
  percent_to_points config metric_name (Some p2) = Ok v2 ->
  v1 <= v2.
Proof.
  intros Hmax Hle.
  destruct (known_metric_profile _ _ Hmax) as [_ Hnonneg _ _ Hunit Hmono].
  rewrite !(percent_to_points_known _ _ _ Hmax).
  pose proof (tier_scan_bounds _ _ Hnonneg p2 THRESHOLDS Hunit) as [Hlow _].
  assert (Hscan : tier_scan (multipliers_of config metric_name) max_points p1
                    THRESHOLDS
                  <= tier_scan (multipliers_of config metric_name) max_points p2
                       THRESHOLDS).
  { apply tier_scan_mono; try assumption.
    eapply Forall_impl; [exact Hunit |]. intros t Ht. exact (proj1 Ht). }
  revert Hlow Hscan.
  generalize (tier_scan (multipliers_of config metric_name) max_points p1 THRESHOLDS).
  generalize (tier_scan (multipliers_of config metric_name) max_points p2 THRESHOLDS).
  intros s2 s1 Hlow Hscan [= <-] [= <-].
  destruct (Qltb p1 50) eqn:E1.
  - destruct (Qltb p2 50); [apply Qle_refl | exact Hlow].
  - apply Qltb_ge in E1.
    assert (E2 : Qltb p2 50 = false) by (apply Qltb_ge; lra).
    rewrite E2. exact Hscan.
Qed.

(** X1.  Within a tier the score does not move: from 50 percent on, a
    percentage earns what the threshold at or below it earns, and that
    threshold is at least 50. *)
Theorem percent_to_points_tier_step (metric_name : string) (max_points percent : Q) :
  dict_get metric_name METRIC_MAX_POINTS = Some max_points ->
  50 <= percent ->
  exists b,
    selected_threshold percent THRESHOLDS = Some b /\
    (50 <= b)%Z /\
    percent_to_points config metric_name (Some percent) =
    percent_to_points config metric_name (Some (inject_Z b)).
Proof.
  intros Hmax Hge.
  destruct (THRESHOLDS_floor _ Hge) as [b Hsel].
  destruct (selected_threshold_highest _ _ _ THRESHOLDS_descending Hsel)
    as (_ & _ & Hhigh).
  assert (Hb : (50 <= b)%Z).
  { apply Hhigh; [unfold THRESHOLDS; set_solver | exact Hge]. }
  exists b. split; [exact Hsel |]. split; [exact Hb |].
  rewrite !(percent_to_points_known _ _ _ Hmax).
  assert (E1 : Qltb percent 50 = false) by (apply Qltb_ge; exact Hge).
  assert (E2 : Qltb (inject_Z b) 50 = false).
  { apply Qltb_ge. change 50 with (inject_Z 50). now rewrite <- Zle_Qle. }
  rewrite E1, E2, !tier_scan_selected, Hsel, (selected_threshold_fixed _ _ _ Hsel).
  reflexivity.
Qed.

Lemma percent_to_points_tier_step_witness :
  exists b,
    selected_threshold 83 THRESHOLDS = Some b /\
    (50 <= b)%Z /\
    percent_to_points config "csat_pct" (Some 83) =
    percent_to_points config "csat_pct" (Some (inject_Z b)).
Proof.
  apply (percent_to_points_tier_step "csat_pct" 5 83).
  - reflexivity.
  - discriminate.
Defined.

Lemma full_points_at_100 :
  Forall (fun kv : string * Q =>
            percent_to_points config kv.1 (Some 100) = Ok kv.2)
    METRIC_MAX_POINTS.
Proof.
  unfold METRIC_MAX_POINTS.
  repeat first [ apply Forall_nil_2 | apply Forall_cons_2 ]; reflexivity.
Qed.

Lemma full_points_at_80 :
  Forall (fun kv : string * Q =>
            rules_multipliers (rules_of config kv.1) = Some FIVE_POINT_MULTIPLIERS ->
            percent_to_points config kv.1 (Some 80) = Ok kv.2)
    METRIC_MAX_POINTS.
Proof.
  unfold METRIC_MAX_POINTS.
  repeat first [ apply Forall_nil_2 | apply Forall_cons_2 ];
    cbn [fst snd]; first [ intros _; reflexivity | discriminate ].
Qed.

(** A score at or above a percentage that already earns the maximum is
    the maximum. *)
Lemma full_points_from (metric_name : string) (max_points full percent : Q) :
  dict_get metric_name METRIC_MAX_POINTS = Some max_points ->
  percent_to_points config metric_name (Some full) = Ok max_points ->
  full <= percent ->
  exists v,
    percent_to_points config metric_name (Some percent) = Ok v /\ v == max_points.
Proof.
  intros Hmax Hfull Hle.
  destruct (percent_to_points_range _ _ (Some percent) Hmax) as (v & Hv & Hrange).
  exists v. split; [exact Hv |].
  pose proof (percent_to_points_le _ _ _ _ _ _ Hmax Hle Hfull Hv).
  apply Qle_antisym; tauto.
Qed.

(** X2.  Every metric earns its maximum from 100 percent on, and a metric
    whose rule names [FIVE_POINT_MULTIPLIERS] earns it from 80 percent
    on. *)
Theorem percent_to_points_full (metric_name : string) (max_points percent : Q) :
  dict_get metric_name METRIC_MAX_POINTS = Some max_points ->
  100 <= percent \/
  (rules_multipliers (rules_of config metric_name) = Some FIVE_POINT_MULTIPLIERS /\
   80 <= percent) ->
  exists v,
    percent_to_points config metric_name (Some percent) = Ok v /\ v == max_points.
Proof.
  intros Hmax Hfull.
  pose proof (dict_get_Some_elem_of _ _ _ Hmax) as Hin.
  destruct Hfull as [Hle | [Hfive Hle]].
  - pose proof full_points_at_100 as Hall. rewrite Forall_forall in Hall.
    exact (full_points_from _ _ _ _ Hmax (Hall _ Hin) Hle).
  - pose proof full_points_at_80 as Hall. rewrite Forall_forall in Hall.
    exact (full_points_from _ _ _ _ Hmax (Hall _ Hin Hfive) Hle).
Qed.

Lemma percent_to_points_full_witness :
  exists v, percent_to_points config "next_up_pct" (Some 82) = Ok v /\ v == 5.
Proof.
  apply (percent_to_points_full "next_up_pct" 5 82).
  - reflexivity.
  - right. split; [reflexivity | discriminate].
Defined.

Lemma whole_tier_scores :
  Forall (fun kv : string * Q =>
            Forall (fun t =>
                      exists n : Z,
                        (0 <= n)%Z /\
                        round2 (kv.2 * default 0 (multipliers_of config kv.1 !! t))
                        = inject_Z n)
              THRESHOLDS)
    METRIC_MAX_POINTS.
Proof.
  unfold METRIC_MAX_POINTS, THRESHOLDS.
  repeat first [ apply Forall_nil_2 | apply Forall_cons_2 ];
    vm_compute; eexists; (split; [| reflexivity]); discriminate.
Qed.

(** A score is a whole number of points. *)
Lemma percent_to_points_whole (metric_name : string) (max_points : Q)
    (percent : option Q) :
  dict_get metric_name METRIC_MAX_POINTS = Some max_points ->
  exists n : Z,
    (0 <= n)%Z /\
    percent_to_points config metric_name percent = Ok (inject_Z n).
Proof.
  intros Hmax. destruct percent as [percent |]; [| exists 0%Z; split; [lia | reflexivity]].
  rewrite (percent_to_points_known _ _ _ Hmax).
  destruct (Qltb percent 50); [exists 0%Z; split; [lia | reflexivity] |].
  rewrite tier_scan_selected.
  destruct (selected_threshold percent THRESHOLDS) as [b |] eqn:Hsel;
    [| exists 0%Z; split; [lia | reflexivity]].
  destruct (selected_threshold_Some _ _ _ Hsel) as (before & after & Hths & _ & _).
  pose proof whole_tier_scores as Hall. rewrite Forall_forall in Hall.
  specialize (Hall _ (dict_get_Some_elem_of _ _ _ Hmax)). cbn [fst snd] in Hall.
  rewrite Forall_forall in Hall.
  destruct (Hall b) as (n & Hn & E).
  { rewrite Hths. apply elem_of_app. right. apply list_elem_of_here. }
  exists n. split; [exact Hn |]. now rewrite E.
Qed.

Lemma dict_get_elem_of_NoDup {V : Type} (k : string) (v : V)
    (d : list (string * V)) :
  NoDup d.*1 -> (k, v) ∈ d -> dict_get k d = Some v.
Proof.
  induction d as [| [k' v'] d IH]; simpl; intros Hdup Hin; [inversion Hin |].
  apply NoDup_cons in Hdup as [Hnew Hdup].
  destruct (String.eqb_spec k k') as [-> | NE].
  - apply elem_of_cons in Hin as [[= ->] | Hin]; [reflexivity |].
    exfalso. apply Hnew. apply (list_elem_of_fmap_2 fst _ _ Hin).
  - apply elem_of_cons in Hin as [[= -> ->] | Hin]; [congruence | auto].
Qed.

Lemma METRIC_MAX_POINTS_NoDup : NoDup METRIC_MAX_POINTS.*1.
Proof. apply (bool_decide_unpack _). vm_compute. exact I. Qed.

Lemma Forall2_elem_of_l {A B : Type} (P : A -> B -> Prop) (l : list A) (k : list B) :
  Forall2 P l k -> Forall2 (fun x y => x ∈ l /\ P x y) l k.
Proof.
  induction 1 as [| x y l k Hxy _ IH]; constructor.
  - split; [apply list_elem_of_here | exact Hxy].
  - eapply Forall2_impl; [exact IH |].
    intros x' y' [Hin Hp]. split; [now apply list_elem_of_further | exact Hp].
Qed.

(** ** Summing a points dictionary *)

Lemma points_sum_insert (m : gmap string Q) (k : string) (v : Q) :
  m !! k = None -> points_sum (<[k := v]> m) == points_sum m + v.
Proof.
  intros Hfresh. unfold points_sum.
  apply (map_fold_insert Qeq (fun _ v acc => acc + v)); [| | exact Hfresh].
  - intros _ z x y E. now rewrite E.
  - intros; ring.
Qed.

Lemma points_sum_replace (m : gmap string Q) (k : string) (v v' : Q) :
  m !! k = Some v -> points_sum (<[k := v']> m) == points_sum m - v + v'.
Proof.
  intros Hk.
  rewrite <- (insert_delete_eq m), points_sum_insert by apply lookup_delete_eq.
  rewrite <- (insert_delete_id m k v) at 2 by exact Hk.
  rewrite (points_sum_insert (delete k m)) by apply lookup_delete_eq. ring.
Qed.

Lemma points_sum_nonneg (m : gmap string Q) :
  (forall k v, m !! k = Some v -> 0 <= v) -> 0 <= points_sum m.
Proof.
  unfold points_sum.
  apply (map_fold_weak_ind
           (fun acc (m' : gmap string Q) =>
              (forall k v, m' !! k = Some v -> 0 <= v) -> 0 <= acc)).
  - intros _. apply Qle_refl.
  - intros k v m' acc Hfresh IH Hall.
    assert (0 <= v) by (apply (Hall k); apply lookup_insert_eq).
    assert (0 <= acc).
    { apply IH. intros k' v' Hk'. apply (Hall k').
      rewrite lookup_insert_ne; [exact Hk' | congruence]. }
    cbv beta. lra.
Qed.

Lemma points_sum_zero (m : gmap string Q) :
  (forall k v, m !! k = Some v -> v == 0) -> points_sum m == 0.
Proof.
  unfold points_sum.
  apply (map_fold_weak_ind
           (fun acc (m' : gmap string Q) =>
              (forall k v, m' !! k = Some v -> v == 0) -> acc == 0)).
  - intros _. reflexivity.
  - intros k v m' acc Hfresh IH Hall.
    assert (Hv : v == 0) by (apply (Hall k); apply lookup_insert_eq).
    assert (Hacc : acc == 0).
    { apply IH. intros k' v' Hk'. apply (Hall k').
      rewrite lookup_insert_ne; [exact Hk' | congruence]. }
    cbv beta. rewrite Hv, Hacc. reflexivity.
Qed.

Section FillSum.

Variable cfg : Config.

(** The loop adds each score to the sum of the dictionary, as long as
    the points keys are new and distinct. *)
Lemma fill_points_sum (d : gmap string (option Q)) (items : list (string * Q)) :
  Forall (fun kv => is_Some (dict_get kv.1 (metric_max_points cfg))) items ->
  NoDup ((fun kv => replace "_pct" "_points" kv.1) <$> items) ->
  forall points0 : gmap string Q,
    (forall kv, kv ∈ items -> points0 !! replace "_pct" "_points" kv.1 = None) ->
    exists (points : gmap string Q) (scores : list Q),
      fill_points cfg d items points0 = Ok points /\
      Forall2 (fun kv v => percent_to_points cfg kv.1 (data_get d kv.1) = Ok v)
        items scores /\
      points_sum points == points_sum points0 + foldr Qplus 0 scores.
Proof.
  induction items as [| [metric_name mx] rest IH]; intros Hknown Hdup points0 Hfresh.
  - exists points0, []. split; [reflexivity |]. split; [constructor |].
    simpl. ring.
  - apply Forall_cons in Hknown as [Hhead Hknown].
    rewrite fmap_cons in Hdup. apply NoDup_cons in Hdup as [Hnew Hdup].
    cbn [fst] in Hhead, Hnew.
    destruct (percent_to_points_total cfg metric_name (data_get d metric_name) Hhead)
      as [v Hv].
    destruct (IH Hknown Hdup (<[replace "_pct" "_points" metric_name := v]> points0))
      as (points & scores & Hfill & Hscores & Hsum).
    { intros kv Hin. rewrite lookup_insert_ne.
      - apply Hfresh. now apply list_elem_of_further.
      - intros E. apply Hnew. rewrite E.
        apply (list_elem_of_fmap_2 (fun kv => replace "_pct" "_points" kv.1)).
        exact Hin. }
    exists points, (v :: scores). cbn [fill_points]. rewrite Hv.
    split; [exact Hfill |]. split; [constructor; assumption |].
    rewrite Hsum, points_sum_insert.
    + simpl. ring.
    + apply (Hfresh (metric_name, mx)). apply list_elem_of_here.
Qed.

End FillSum.

Lemma points_sum_empty : points_sum ∅ = 0.
Proof. reflexivity. Qed.

Lemma whole_scores_sum (items : list (string * Q)) (scores : list Q) :
  Forall2 (fun (kv : string * Q) v =>
             exists n : Z, (0 <= n)%Z /\ v = inject_Z n /\ v <= kv.2)
    items scores ->
  exists n : Z,
    (0 <= n)%Z /\ foldr Qplus 0 scores == inject_Z n /\
    inject_Z n <= foldr Qplus 0 items.*2.
Proof.
  induction 1 as [| [k mx] v items scores (n & Hn & -> & Hle) _ (N & HN & Hsum & Hbound)].
  - exists 0%Z. split; [lia |]. split; [reflexivity | apply Qle_refl].
  - exists (n + N)%Z. split; [lia |].
    rewrite fmap_cons. cbn [foldr snd] in *. rewrite inject_Z_plus, Hsum.
    split; [reflexivity |].
    revert Hle Hbound. generalize (foldr Qplus 0 items.*2) (inject_Z n) (inject_Z N).
    intros; lra.
Qed.

(** The unadjusted dictionary of [compute_points]: its keys, its entries
    and its sum. *)
Lemma compute_points_base_sum (record : Record) :
  exists (base : gmap string Q) (n : Z),
    fill_points config (data record) METRIC_MAX_POINTS ∅ = Ok base /\
    (forall key,
       is_Some (base !! key) <->
       key ∈ (fun kv : string * Q => replace "_pct" "_points" kv.1)
               <$> METRIC_MAX_POINTS) /\
    (0 <= n <= 100)%Z /\ points_sum base == inject_Z n.
Proof.
  destruct (fill_points_sum config (data record) METRIC_MAX_POINTS
              METRIC_MAX_POINTS_known points_keys_NoDup ∅)
    as (base & scores & Hfill & Hscores & Hsum).
  { intros kv _. apply lookup_empty. }
  destruct (fill_points_spec config (data record) METRIC_MAX_POINTS
              METRIC_MAX_POINTS_known points_keys_NoDup ∅)
    as (base' & Hfill' & Hitems & Hother).
  rewrite Hfill in Hfill'. injection Hfill' as <-.
  destruct (whole_scores_sum METRIC_MAX_POINTS scores) as (n & Hn & Hwhole & Hbound).
  { eapply Forall2_impl; [exact (Forall2_elem_of_l _ _ _ Hscores) |].
    intros [k mx] v [Hin Hv]. cbn [fst snd] in *.
    pose proof (dict_get_elem_of_NoDup _ _ _ METRIC_MAX_POINTS_NoDup Hin) as Hmx.
    destruct (percent_to_points_whole _ _ (data_get (data record) k) Hmx)
      as (n & Hn & Hw).
    destruct (percent_to_points_range _ _ (data_get (data record) k) Hmx)
      as (v' & Hv' & Hrange).
    rewrite Hv in Hw, Hv'. injection Hw as ->. injection Hv' as <-.
    exists n. split; [exact Hn |]. split; [reflexivity | tauto]. }
  exists base, n. split; [exact Hfill |]. split; [| split].
  - intros key. split.
    + intros Hsome. destruct (decide (key ∈ (fun kv : string * Q =>
                                 replace "_pct" "_points" kv.1) <$> METRIC_MAX_POINTS))
        as [Hin | Hout]; [exact Hin |].
      rewrite (Hother _ Hout), lookup_empty in Hsome. destruct Hsome as [? [=]].
    + intros Hin. apply list_elem_of_fmap in Hin as (kv & -> & Hkv).
      destruct (Hitems _ Hkv) as (v & _ & Hv). eauto.
  - change (foldr Qplus 0 METRIC_MAX_POINTS.*2) with 100 in Hbound.
    change 100 with (inject_Z 100) in Hbound. rewrite <- Zle_Qle in Hbound. lia.
  - rewrite Hsum, points_sum_empty, Hwhole. ring.
Qed.

Lemma round2_half (n : Z) : round2 (inject_Z n / 2) == inject_Z n / 2.
Proof.
  assert (E : inject_Z n / 2 == inject_Z (50 * n) / 100).
  { rewrite inject_Z_mult. field. }
  rewrite (round2_comp _ _ E), round2_hundredths. symmetry. exact E.
Qed.

Lemma round2_twentieth (n : Z) : round2 (inject_Z n / 2 / 100 * 10) == inject_Z n / 20.
Proof.
  assert (E : inject_Z n / 2 / 100 * 10 == inject_Z (5 * n) / 100).
  { rewrite inject_Z_mult. field. }
  rewrite (round2_comp _ _ E), round2_hundredths, inject_Z_mult. field.
Qed.

(** What [compute_points] returns: the ten points keys and nothing else,
    a whole number of points under each key but possibly a half under
    ["protection_points"], and a sum that is a whole number of half
    points between 0 and 100. *)
Lemma compute_points_total (record : Record) :
  exists (points : gmap string Q) (n : Z),
    compute_points config record = Ok points /\
    (forall key,
       is_Some (points !! key) <->
       key ∈ (fun kv : string * Q => replace "_pct" "_points" kv.1)
               <$> METRIC_MAX_POINTS) /\
    (0 <= n <= 200)%Z /\ points_sum points == inject_Z n / 2.
Proof.
  destruct (compute_points_base_sum record) as (base & N & Hfill & Hkeys & HN & Hsum).
  destruct (compute_points_base record) as (base' & Hfill' & Hbase & Hpoints).
  rewrite Hfill in Hfill'. injection Hfill' as <-.
  assert (Hplain : exists n : Z,
             (0 <= n <= 200)%Z /\ points_sum base == inject_Z n / 2).
  { exists (2 * N)%Z. split; [lia |]. rewrite Hsum, inject_Z_mult. field. }
  rewrite Hpoints.
  destruct (data_get (data record) "htp_pct") as [htp |];
    [destruct (Qltb htp (13 # 2)) |];
    [| destruct Hplain as (n & ? & ?); exists base, n; auto
     | destruct Hplain as (n & ? & ?); exists base, n; auto].
  destruct (Hbase "protection_pct" 5 eq_refl) as (v & Hv & Hlookup).
  change (replace "_pct" "_points" "protection_pct") with "protection_points"
    in Hlookup.
  destruct (percent_to_points_whole "protection_pct" 5
              (data_get (data record) "protection_pct") eq_refl) as (m & Hm & Hw).
  rewrite Hv in Hw. injection Hw as ->.
  assert (Hrest : 0 <= points_sum (delete "protection_points" base)).
  { apply points_sum_nonneg. intros k w Hk.
    apply lookup_delete_Some in Hk as [_ Hk].
    assert (Hin : is_Some (base !! k)) by eauto.
    apply Hkeys, list_elem_of_fmap in Hin as ([k' mx] & -> & Hin).
    pose proof (dict_get_elem_of_NoDup _ _ _ METRIC_MAX_POINTS_NoDup Hin) as Hmx.
    destruct (Hbase _ _ Hmx) as (w' & Hw' & Hk').
    cbn [fst] in Hk. rewrite Hk in Hk'. injection Hk' as <-.
    destruct (percent_to_points_range _ _ (data_get (data record) k') Hmx)
      as (w' & Hw'' & Hrange).
    rewrite Hw' in Hw''. injection Hw'' as <-. tauto. }
  assert (Hsplit : points_sum base
                   == points_sum (delete "protection_points" base) + inject_Z m).
  { rewrite <- (insert_delete_id base "protection_points" (inject_Z m)) at 1
      by exact Hlookup.
    apply points_sum_insert, lookup_delete_eq. }
  eexists _, (2 * N - m)%Z. split; [reflexivity |]. split; [| split].
  - intros key. rewrite <- Hkeys.
    destruct (decide (key = "protection_points")) as [-> | NE].
    + rewrite lookup_insert_eq, Hlookup. split; eauto.
    + rewrite lookup_insert_ne by congruence. reflexivity.
  - rewrite Hsum in Hsplit.
    assert (Hm' : inject_Z m <= inject_Z N) by lra.
    rewrite <- Zle_Qle in Hm'. lia.
  - rewrite (points_sum_replace _ _ _ _ Hlookup), Hlookup. simpl default.
    rewrite round2_half, Hsum.
    unfold Zminus. rewrite inject_Z_plus, inject_Z_mult, inject_Z_opp. field.
Qed.

(** X3.  Whatever the record, [compute_points] returns a dictionary with
    exactly the ten points keys, one per metric of [METRIC_MAX_POINTS]:
    no reading, present or not, adds or removes a key. *)
Theorem compute_points_keys (record : Record) :
  exists points : gmap string Q,
    compute_points config record = Ok points /\
    forall key,
      is_Some (points !! key) <->
      key ∈ ["opps_points"; "ppvga_points"; "internet_points";
             "accessories_points"; "protection_points"; "rate_plan_points";
             "next_up_points"; "event_opps_points"; "plus1_points";
             "csat_points"].
Proof.
  destruct (compute_points_total record) as (points & _ & Hpoints & Hkeys & _).
  exists points. split; [exact Hpoints | exact Hkeys].
Qed.

(** X4.  For every record the total points lie between 0 and 100 and the
    Power Rank between 0 and 10. *)
Theorem power_rank_bounds (record : Record) :
  exists (points : gmap string Q) (total_points power_rank : Q),
    compute_points config record = Ok points /\
    compute_power_rank points = (total_points, power_rank) /\
    0 <= total_points <= 100 /\
    0 <= power_rank <= 10.
Proof.
  destruct (compute_points_total record) as (points & n & Hpoints & _ & Hn & Hsum).
  exists points, (round2 (points_sum points)),
    (round2 (round2 (points_sum points) / 100 * 10)).
  split; [exact Hpoints |]. split; [reflexivity |].
  rewrite Hsum, round2_half, round2_twentieth.
  assert (H0 : inject_Z 0 <= inject_Z n) by (rewrite <- Zle_Qle; lia).
  assert (H200 : inject_Z n <= inject_Z 200) by (rewrite <- Zle_Qle; lia).
  change (inject_Z 0) with 0 in H0. change (inject_Z 200) with 200 in H200.
  generalize dependent (inject_Z n). intros q _ H0 H200.
  unfold Qdiv. change (/ 2) with (1 # 2). change (/ 20) with (1 # 20).
  repeat split; lra.
Qed.

(** X5.  On the result of [compute_points] neither rounding of
    [compute_power_rank] loses anything: the total is the plain sum of
    the entries, a whole number of half points, and the Power Rank is
    exactly a tenth of the total. *)
Theorem power_rank_exact (record : Record) :
  exists (points : gmap string Q) (total_points power_rank : Q),
    compute_points config record = Ok points /\
    compute_power_rank points = (total_points, power_rank) /\
    total_points == points_sum points /\
    (exists n : Z, total_points == inject_Z n / 2) /\
    power_rank == total_points / 10.
Proof.
  destruct (compute_points_total record) as (points & n & Hpoints & _ & Hn & Hsum).
  exists points, (round2 (points_sum points)),
    (round2 (round2 (points_sum points) / 100 * 10)).
  split; [exact Hpoints |]. split; [reflexivity |].
  assert (Ht : round2 (points_sum points) == inject_Z n / 2).
  { rewrite (round2_comp _ _ Hsum). apply round2_half. }
  assert (Hr : round2 (round2 (points_sum points) / 100 * 10) == inject_Z n / 20).
  { assert (E : round2 (points_sum points) / 100 * 10 == inject_Z n / 2 / 100 * 10)
      by (rewrite Ht; reflexivity).
    rewrite (round2_comp _ _ E). apply round2_twentieth. }
  split; [now rewrite Ht, Hsum |].
  split; [exists n; exact Ht |].
  rewrite Hr, Ht. field.
Qed.

(** X6.  A record without a reading for any metric scores 0 under each
    of the ten points keys, whatever [htp_pct] holds; the dictionary has no
    other entry, and both the total and the Power Rank are 0. *)
Theorem compute_points_no_readings (record : Record) :
  (forall metric_name max_points,
     dict_get metric_name METRIC_MAX_POINTS = Some max_points ->
     data_get (data record) metric_name = None) ->
  exists points,
    compute_points config record = Ok points /\
    (forall metric_name max_points,
       dict_get metric_name METRIC_MAX_POINTS = Some max_points ->
       points !! replace "_pct" "_points" metric_name = Some 0) /\
    (forall key,
       is_Some (points !! key) ->
       key ∈ replace "_pct" "_points" <$> METRIC_MAX_POINTS.*1) /\
    compute_power_rank points = (0, 0).
Proof.
  intros Hnone.
  destruct (compute_points_base_sum record) as (base & _ & Hfill & Hkeys & _).
  destruct (compute_points_base record) as (base' & Hfill' & Hbase & Hpoints).
  rewrite Hfill in Hfill'. injection Hfill' as <-.
  assert (Hsome : forall metric_name max_points,
            dict_get metric_name METRIC_MAX_POINTS = Some max_points ->
            base !! replace "_pct" "_points" metric_name = Some 0).
  { intros metric_name max_points Hmx.
    destruct (Hbase _ _ Hmx) as (w & Hw & Hk).
    rewrite (Hnone _ _ Hmx) in Hw. now injection Hw as <-. }
  assert (Hzero : forall key v, base !! key = Some v -> v = 0).
  { intros key v Hk.
    assert (Hin : is_Some (base !! key)) by eauto.
    apply Hkeys, list_elem_of_fmap in Hin as ([k' mx] & -> & Hin).
    pose proof (dict_get_elem_of_NoDup _ _ _ METRIC_MAX_POINTS_NoDup Hin) as Hmx.
    cbn [fst] in Hk. rewrite (Hsome _ _ Hmx) in Hk. now injection Hk as <-. }
  assert (Hall : forall points : gmap string Q,
            (forall key v, points !! key = Some v -> v = 0) ->
            compute_power_rank points = (0, 0)).
  { intros points Hz. unfold compute_power_rank.
    assert (E : round2 (map_fold (fun _ v acc => acc + v) 0 points) = 0).
    { transitivity (round2 0); [| reflexivity]. apply round2_comp.
      apply points_sum_zero. intros k v Hk. now rewrite (Hz k v Hk). }
    rewrite E. reflexivity. }
  assert (Hhalf : round2 (default 0 (base !! "protection_points") / 2) = 0).
  { destruct (base !! "protection_points") as [w |] eqn:Hw; [| reflexivity].
    rewrite (Hzero _ _ Hw). reflexivity. }
  assert (Hadj : forall key v,
            <["protection_points" :=
                round2 (default 0 (base !! "protection_points") / 2)]> base !! key
            = Some v -> v = 0).
  { intros key v. destruct (decide (key = "protection_points")) as [-> | NE].
    - rewrite lookup_insert_eq. intros [= <-]. exact Hhalf.
    - rewrite lookup_insert_ne by congruence. apply Hzero. }
  assert (Hadjsome : forall metric_name max_points,
            dict_get metric_name METRIC_MAX_POINTS = Some max_points ->
            <["protection_points" :=
                round2 (default 0 (base !! "protection_points") / 2)]> base
            !! replace "_pct" "_points" metric_name = Some 0).
  { intros metric_name max_points Hmx.
    destruct (decide (replace "_pct" "_points" metric_name = "protection_points"))
      as [-> | NE].
    - rewrite lookup_insert_eq. now rewrite Hhalf.
    - rewrite lookup_insert_ne by congruence. exact (Hsome _ _ Hmx). }
  assert (Hadjkeys : forall key,
            is_Some (<["protection_points" :=
                         round2 (default 0 (base !! "protection_points") / 2)]> base
                     !! key) ->
            key ∈ replace "_pct" "_points" <$> METRIC_MAX_POINTS.*1).
  { intros key. destruct (decide (key = "protection_points")) as [-> | NE].
    - intros _. apply Hkeys. exists 0.
      exact (Hsome "protection_pct" 5 eq_refl).
    - rewrite lookup_insert_ne by congruence. apply Hkeys. }
  rewrite Hpoints.
  destruct (data_get (data record) "htp_pct") as [htp |];
    [destruct (Qltb htp (13 # 2)) |]; eexists; (split; [reflexivity |]);
    (split; [| split]); eauto; intros key; apply Hkeys.
Qed.

Lemma compute_points_no_readings_witness :
  exists points : gmap string Q,
    compute_points config (MkRecord {["htp_pct" := Some 5]} "" []) = Ok points /\
    (forall metric_name max_points,
       dict_get metric_name METRIC_MAX_POINTS = Some max_points ->
       points !! replace "_pct" "_points" metric_name = Some 0) /\
    (forall key,
       is_Some (points !! key) ->
       key ∈ replace "_pct" "_points" <$> METRIC_MAX_POINTS.*1) /\
    compute_power_rank points = (0, 0).
Proof.
  apply (compute_points_no_readings (MkRecord {["htp_pct" := Some 5]} "" [])).
  intros metric_name max_points Hmax. unfold data_get. cbn [data].
  rewrite lookup_singleton_ne; [reflexivity |].
  intros <-. discriminate Hmax.
Defined.

(** * Further properties of the pacing calculation *)

Lemma needed_to_target_Ok (current_value goal : Q) (day_of_month days_in_month : Z)
    (target_pct : Q) :
  (1 <= days_in_month)%Z ->
  needed_to_target current_value goal day_of_month days_in_month target_pct =
  Ok (Z.max 0
        (Qceiling (goal / inject_Z days_in_month * inject_Z day_of_month
                   * (target_pct / 100) - current_value))).
Proof.
  intros Hdays. unfold needed_to_target.
  assert (E : (days_in_month <=? 0)%Z = false) by (apply Z.leb_gt; lia).
  now rewrite E.
Qed.



(** * Further properties of the recommendation engine *)

Section PlanErrors.

Variable cfg : Config.
Variables goals current : gmap string Q.



(** What [recommend] does with other days: a [continue] stays one, and
    a recommendation becomes a failure when [days_in_month <= 0]. *)
Lemma recommend_other_days (day day' days days' : Z) (metric_name : string) :
  (days <= 0)%Z ->
  match recommend cfg goals current day' days' metric_name with
  | Ok None => recommend cfg goals current day days metric_name = Ok None
  | Ok (Some _) =>
      recommend cfg goals current day days metric_name
      = Raise (ValueError "days_in_month must be greater than zero.")
  | Raise _ => True
  end.
Proof.
  intros Hdays. unfold recommend.
  destruct (goals !! metric_name) as [goal_value |]; [| reflexivity].
  destruct (percent_to_points cfg metric_name _) as [v |]; [| exact I].
  cbn [mbind result_bind].
  destruct (find_next_threshold _ _ _) as [nt |]; [| reflexivity].
  destruct (percent_to_points cfg metric_name (Some (inject_Z nt))) as [w |];
    [| exact I].
  cbn [mbind result_bind].
  destruct (Qle_bool _ 0); [reflexivity |].
  unfold needed_to_target at 2.
  apply Z.leb_le in Hdays. rewrite Hdays. cbn [mbind result_bind].
  destruct (needed_to_target _ _ day' days' _); cbn [mbind result_bind];
    [reflexivity | exact I].
Qed.

Lemma recommend_loop_other_days (day day' days days' : Z)
    (items : list (string * Q)) :
  (days <= 0)%Z ->
  forall recs0 emitted,
    recommend_loop cfg goals current day' days' items recs0
    = Ok (recs0 ++ emitted) ->
    match emitted with
    | [] => recommend_loop cfg goals current day days items recs0 = Ok recs0
    | _ :: _ =>
        recommend_loop cfg goals current day days items recs0
        = Raise (ValueError "days_in_month must be greater than zero.")
    end.
Proof.
  intros Hdays.
  induction items as [| [metric_name mx] rest IH]; intros recs0 emitted; simpl.
  - intros [= E]. rewrite <- (app_nil_r recs0) in E at 1.
    apply app_inv_head in E as <-. reflexivity.
  - pose proof (recommend_other_days day day' days days' metric_name Hdays) as Hother.
    destruct (recommend cfg goals current day' days' metric_name)
      as [[r |] | e]; cbn [mbind result_bind]; [| | discriminate].
    + intros Hloop.
      destruct (recommend_loop_spec _ _ _ _ _ _ _ _ Hloop)
        as (more & E & _ & _).
      rewrite <- app_assoc in E. apply app_inv_head in E as ->.
      rewrite Hother. reflexivity.
    + intros Hloop. rewrite Hother. cbn [mbind result_bind]. exact (IH _ _ Hloop).
Qed.



End PlanErrors.



(** X10.  A [days_in_month] that is not positive matters only when there
    is something to recommend: if the call with other days returns a plan
    without recommendations, the call returns that same plan, and if that
    plan has recommendations, the call fails with the [ValueError]. *)
Theorem calculate_needed_by_date_bad_days (goals current : gmap string Q)
    (day_of_month days_in_month day' days' : Z) (target : Q) (plan' : Plan) :
  (days_in_month <= 0)%Z ->
  calculate_needed_by_date config goals current day' days' target = Ok plan' ->
  (recommendations plan' = [] ->
   calculate_needed_by_date config goals current day_of_month days_in_month target
   = Ok plan') /\
  (recommendations plan' <> [] ->
   calculate_needed_by_date config goals current day_of_month days_in_month target
   = Raise (ValueError "days_in_month must be greater than zero.")).
Proof.
  intros Hdays. unfold calculate_needed_by_date.
  destruct (compute_points config (MkRecord (Some <$> current) "" []))
    as [points |]; [| discriminate].
  cbn [mbind result_bind].
  destruct (recommend_loop config goals current day' days'
              (metric_max_points config) []) as [recs |] eqn:Hloop;
    [| discriminate].
  cbn [mbind result_bind]. intros [= <-]. cbn [recommendations].
  pose proof (recommend_loop_other_days config goals current
                day_of_month day' days_in_month days' (metric_max_points config)
                Hdays [] recs Hloop) as Hother.
  destruct recs as [| r recs].
  - rewrite Hother. cbn [mbind result_bind]. split; [reflexivity |].
    intros Hne. now destruct Hne.
  - rewrite Hother. cbn [mbind result_bind]. split; [| reflexivity].
    intros Hnil.
    pose proof (sort_by_gain_reverse_perm (r :: recs)) as Hperm.
    rewrite Hnil in Hperm. apply Permutation_nil_cons in Hperm. destruct Hperm.
Qed.

Lemma calculate_needed_by_date_bad_days_witness :
  (recommendations example_plan = [] ->
   calculate_needed_by_date config example_goals example_current 14 0 8
   = Ok example_plan) /\
  (recommendations example_plan <> [] ->
   calculate_needed_by_date config example_goals example_current 14 0 8
   = Raise (ValueError "days_in_month must be greater than zero.")).
Proof.
  apply (calculate_needed_by_date_bad_days example_goals example_current
           14 0 14 28 8 example_plan).
  - lia.
  - vm_compute. reflexivity.
Defined.




(** X12.  A plan names each metric at most once and holds at most ten
    recommendations. *)
Theorem recommendations_distinct (goals current : gmap string Q)
    (day_of_month days_in_month : Z) (target : Q) (plan : Plan) :
  calculate_needed_by_date config goals current day_of_month days_in_month target
  = Ok plan ->
  NoDup (metric <$> recommendations plan) /\
  (length (recommendations plan) <= 10)%nat.
Proof.
  intros Hplan.
  destruct (calculate_needed_by_date_recommendations _ _ _ _ _ _ _ Hplan)
    as (emitted & -> & Hsub & _).
  rewrite sort_by_gain_reverse_perm. split.
  - exact (sublist_NoDup _ _ METRIC_MAX_POINTS_NoDup Hsub).
  - apply sublist_length in Hsub. rewrite !length_fmap in Hsub. exact Hsub.
Qed.

Lemma recommendations_distinct_witness :
  NoDup (metric <$> recommendations example_plan) /\
  (length (recommendations example_plan) <= 10)%nat.
Proof.
  apply (recommendations_distinct example_goals example_current 14 28 8).
  vm_compute. reflexivity.
Defined.

(** X13.  Every recommendation of a plan names a metric of
    [METRIC_MAX_POINTS] that has a goal, and was computed with a positive
    [days_in_month]; its point gain is at most the metric's maximum; its
    threshold is one of [THRESHOLDS], is at least 50 and is not below the
    current percentage reported; and its amount is not negative. *)
Theorem recommendation_fields (goals current : gmap string Q)
    (day_of_month days_in_month : Z) (target : Q) (plan : Plan)
    (r : Recommendation) :
  calculate_needed_by_date config goals current day_of_month days_in_month target
  = Ok plan ->
  r ∈ recommendations plan ->
  exists max_points goal_value,
    dict_get (metric r) METRIC_MAX_POINTS = Some max_points /\
    goals !! metric r = Some goal_value /\
    (0 < days_in_month)%Z /\
    point_gain r <= max_points /\
    next_threshold r ∈ THRESHOLDS /\ (50 <= next_threshold r)%Z /\
    current_percent r <= inject_Z (next_threshold r) /\
    (0 <= needed_more_by_today r)%Z.
Proof.
  intros Hplan Hin.
  destruct (calculate_needed_by_date_recommendations _ _ _ _ _ _ _ Hplan)
    as (emitted & Hsorted & _ & Hall).
  rewrite Hsorted, sort_by_gain_reverse_perm in Hin.
  rewrite Forall_forall in Hall. specialize (Hall _ Hin).
  assert (Hfield : current_percent r
            = round2 (percent_of_goal (default 0 (current !! metric r))
                        (default 0 (goals !! metric r)))).
  { revert Hall. unfold recommend, percent_of_goal.
    destruct (goals !! metric r) as [g |]; [| discriminate].
    destruct (percent_to_points config (metric r) _); [| discriminate].
    cbn [mbind result_bind].
    destruct (find_next_threshold _ _ _); [| discriminate].
    destruct (percent_to_points config (metric r) _); [| discriminate].
    cbn [mbind result_bind].
    destruct (Qle_bool _ 0); [discriminate |].
    destruct (needed_to_target _ _ _ _ _); [| discriminate].
    cbn [mbind result_bind]. intros [= <-]. reflexivity. }
  destruct (recommend_Some _ _ _ _ _ _ _ Hall)
    as (mx & goal_value & cur & nxt & Hmx & Hgoal & Hcur & Hnext & Hnxt
        & Hgain & Hpos & Hneed).
  cbv zeta in Hcur, Hnext, Hneed.
  change (metric_max_points config) with METRIC_MAX_POINTS in Hmx.
  change (thresholds config) with THRESHOLDS in Hnext.
  rewrite Hgoal in Hfield. cbn [default] in Hfield.
  exists mx, goal_value.
  destruct (find_next_threshold_Some _ _ _ _ Hnext) as (Hth & Hbelow & Hgate).
  destruct (known_metric_profile _ _ Hmx) as [Hallow _ Hround _ _ _].
  assert (Hdays : (0 < days_in_month)%Z).
  { destruct (Z.leb_spec days_in_month 0) as [Hle | Hlt]; [| exact Hlt].
    unfold needed_to_target in Hneed. apply Z.leb_le in Hle.
    rewrite Hle in Hneed. discriminate. }
  repeat (split; [assumption |]). split; [| split; [exact Hth | split; [| split]]].
  - destruct (percent_to_points_range _ _ (Some (inject_Z (next_threshold r))) Hmx)
      as (v & Hv & Hrange).
    destruct (percent_to_points_range _ _
                (Some (percent_of_goal (default 0 (current !! metric r)) goal_value))
                Hmx) as (w & Hw & Hwrange).
    rewrite Hnxt in Hv. injection Hv as <-. rewrite Hcur in Hw. injection Hw as <-.
    rewrite Hgain, <- Hround. apply round2_mono.
    destruct (Q.max_spec 0 (nxt - cur)) as [[_ ->] | [_ ->]]; lra.
  - destruct Hgate as [Hgate | Hgate]; [exact Hgate | congruence].
  - rewrite Hfield, <- (round2_Z (next_threshold r)).
    apply round2_mono, Qlt_le_weak, Hbelow.
  - rewrite needed_to_target_Ok in Hneed by lia. injection Hneed as <-. lia.
Qed.

Lemma recommendation_fields_witness :
  exists max_points goal_value,
    dict_get (metric example_recommendation) METRIC_MAX_POINTS = Some max_points /\
    example_goals !! metric example_recommendation = Some goal_value /\
    (0 < 28)%Z /\
    point_gain example_recommendation <= max_points /\
    next_threshold example_recommendation ∈ THRESHOLDS /\
    (50 <= next_threshold example_recommendation)%Z /\
    current_percent example_recommendation
    <= inject_Z (next_threshold example_recommendation) /\
    (0 <= needed_more_by_today example_recommendation)%Z.
Proof.
  apply (recommendation_fields example_goals example_current 14 28 8 example_plan).
  - vm_compute. reflexivity.
  - apply list_elem_of_here.
Defined.

(** X14.  A metric whose current percentage already earns its maximum
    (100 percent, or 80 percent under [FIVE_POINT_MULTIPLIERS]) is never
    recommended. *)
Theorem full_metric_not_recommended (goals current : gmap string Q)
    (day_of_month days_in_month : Z) (target : Q) (plan : Plan)
    (metric_name : string) (max_points goal_value : Q) :
  calculate_needed_by_date config goals current day_of_month days_in_month target
  = Ok plan ->
  dict_get metric_name METRIC_MAX_POINTS = Some max_points ->
  goals !! metric_name = Some goal_value ->
  let percent := percent_of_goal (default 0 (current !! metric_name)) goal_value in
  100 <= percent \/
  (rules_multipliers (rules_of config metric_name) = Some FIVE_POINT_MULTIPLIERS /\
   80 <= percent) ->
  Forall (fun r => metric r <> metric_name) (recommendations plan).
Proof.
  intros Hplan Hmax Hgoal percent Hfull. apply Forall_forall. intros r Hin <-.
  destruct (calculate_needed_by_date_recommendations _ _ _ _ _ _ _ Hplan)
    as (emitted & Hsorted & _ & Hall).
  rewrite Hsorted, sort_by_gain_reverse_perm in Hin.
  rewrite Forall_forall in Hall. specialize (Hall _ Hin).
  destruct (recommend_Some _ _ _ _ _ _ _ Hall)
    as (mx & goal_value' & cur & nxt & Hmx & Hgoal' & Hcur & _ & Hnxt
        & Hgain & Hpos & _).
  cbv zeta in Hcur.
  change (metric_max_points config) with METRIC_MAX_POINTS in Hmx.
  rewrite Hmax in Hmx. injection Hmx as <-.
  rewrite Hgoal in Hgoal'. injection Hgoal' as <-. fold percent in Hcur.
  pose proof (dict_get_Some_elem_of _ _ _ Hmax) as Hin'.
  assert (Hcurmax : cur == max_points).
  { destruct Hfull as [Hle | [Hfive Hle]].
    - pose proof full_points_at_100 as H100. rewrite Forall_forall in H100.
      destruct (full_points_from _ _ _ _ Hmax (H100 _ Hin') Hle) as (v & Hv & E).
      rewrite Hcur in Hv. now injection Hv as <-.
    - pose proof full_points_at_80 as H80. rewrite Forall_forall in H80.
      destruct (full_points_from _ _ _ _ Hmax (H80 _ Hin' Hfive) Hle) as (v & Hv & E).
      rewrite Hcur in Hv. now injection Hv as <-. }
  destruct (percent_to_points_range _ _ (Some (inject_Z (next_threshold r))) Hmax)
    as (v & Hv & Hrange).
  rewrite Hnxt in Hv. injection Hv as <-.
  rewrite Hgain in Hpos. apply round2_pos in Hpos.
  destruct (Q.max_spec 0 (nxt - cur)) as [[_ E] | [_ E]]; rewrite E in Hpos; lra.
Qed.

Lemma full_metric_not_recommended_witness :
  Forall (fun r => metric r <> "opps_pct")
    (recommendations (MkPlan 8 80 10 70 [example_recommendation])).
Proof.
  apply (full_metric_not_recommended
           {["opps_pct" := 100; "protection_pct" := 100]} {["opps_pct" := 120]}
           14 28 8 (MkPlan 8 80 10 70 [example_recommendation]) "opps_pct" 10 100).
  - vm_compute. reflexivity.
  - reflexivity.
  - reflexivity.
  - left. discriminate.
Defined.



(** * Properties of reading and reporting *)

Lemma filter_ext_elem_of {A : Type} (P1 P2 : A -> Prop)
    `{!forall x, Decision (P1 x)} `{!forall x, Decision (P2 x)} (l : list A) :
  (forall x, x ∈ l -> P1 x <-> P2 x) -> filter P1 l = filter P2 l.
Proof.
  induction l as [| x l IH]; intros Hext; [reflexivity |].
  rewrite !filter_cons.
  assert (Hx : P1 x <-> P2 x) by (apply Hext, list_elem_of_here).
  rewrite IH by (intros y Hy; apply Hext; now apply list_elem_of_further).
  destruct (decide (P1 x)), (decide (P2 x)); tauto.
Qed.

Section ParsingLemmas.

Variable float_of_string : string -> option Q.
Variable repr : string -> string.
Variable strip : string -> string.

Abbreviation to_float := (_to_float float_of_string repr).

(** The reading [_to_float] returns for a field of a row. *)
Abbreviation reading row field := (to_float (row_get row field) field []).1.

(** [_to_float] keeps the errors it is given and adds one exactly when
    it returns no reading; what it returns does not depend on them. *)
Lemma _to_float_errors (value : option string) (field_name : string)
    (errors : list string) :
  exists extra,
    to_float value field_name errors
    = ((to_float value field_name []).1, errors ++ extra) /\
    length extra
    = if decide ((to_float value field_name []).1 = None) then 1%nat else 0%nat.
Proof.
  unfold _to_float.
  destruct value as [[| c value] |]; try (eexists; split; reflexivity).
  destruct (float_of_string (String c value)) as [x |].
  - exists []. rewrite app_nil_r. split; reflexivity.
  - eexists. split; reflexivity.
Qed.

Lemma parse_fields_spec (row : gmap string (option string))
    (fields : list (string * Q)) :
  NoDup fields.*1 ->
  forall data0 errors0,
  exists data errors,
    parse_fields float_of_string repr row fields data0 errors0 = (data, errors) /\
    (forall field, field ∈ fields.*1 -> data !! field = Some (reading row field)) /\
    (forall key, key ∉ fields.*1 -> data !! key = data0 !! key) /\
    length errors
    = (length errors0
       + length (filter (fun field => reading row field = None) fields.*1))%nat.
Proof.
  induction fields as [| [field mx] rest IH]; intros Hdup data0 errors0.
  - exists data0, errors0. split; [reflexivity |]. split.
    + intros field Hin. inversion Hin.
    + split; [reflexivity |]. simpl. lia.
  - rewrite fmap_cons in Hdup. apply NoDup_cons in Hdup as [Hnew Hdup].
    cbn [fst] in Hnew. cbn [parse_fields].
    destruct (_to_float_errors (row_get row field) field errors0)
      as (extra & -> & Hextra).
    destruct (IH Hdup (<[field := reading row field]> data0) (errors0 ++ extra))
      as (data & errors & -> & Hfields & Hother & Hlen).
    exists data, errors. split; [reflexivity |]. split; [| split].
    + intros f Hin. rewrite fmap_cons in Hin.
      apply elem_of_cons in Hin as [-> | Hin]; [| auto].
      cbn [fst]. rewrite (Hother _ Hnew). apply lookup_insert_eq.
    + intros key Hkey. rewrite fmap_cons in Hkey.
      apply not_elem_of_cons in Hkey as [Hne Hkey]. cbn [fst] in Hne.
      rewrite (Hother _ Hkey). apply lookup_insert_ne. congruence.
    + rewrite Hlen, length_app, Hextra, fmap_cons, filter_cons. cbn [fst].
      destruct (decide (reading row field = None)); simpl; lia.
Qed.

(** What [parse_csv_row] records for a row. *)
Lemma parse_csv_row_spec (row : gmap string (option string)) :
  let record := parse_csv_row config float_of_string repr strip row in
  (forall field,
     field ∈ METRIC_MAX_POINTS.*1 ++ ["htp_pct"] ->
     data record !! field = Some (reading row field)) /\
  (forall key,
     key ∉ METRIC_MAX_POINTS.*1 ++ ["htp_pct"] -> data record !! key = None) /\
  length (errors record)
  = ((if decide (date record = EmptyString) then 1 else 0)
     + length (filter (fun field => reading row field = None)
                 (METRIC_MAX_POINTS.*1 ++ ["htp_pct"])))%nat.
Proof.
  unfold parse_csv_row. change (metric_max_points config) with METRIC_MAX_POINTS.
  set (date_value := strip (default EmptyString (mjoin (row !! "date")))).
  set (dated := if String.eqb date_value EmptyString
                then (EmptyString, [] ++ ["Missing date value."])
                else (date_value, [])).
  assert (Hdated : length dated.2
                   = if decide (dated.1 = EmptyString) then 1%nat else 0%nat).
  { unfold dated. destruct (String.eqb_spec date_value EmptyString) as [E | NE].
    - reflexivity.
    - cbn [fst snd]. destruct (decide (date_value = EmptyString)); [contradiction |].
      reflexivity. }
  destruct dated as [date_value' errors0]. cbn [fst snd] in Hdated.
  destruct (parse_fields_spec row METRIC_MAX_POINTS METRIC_MAX_POINTS_NoDup ∅ errors0)
    as (parsed & errs & -> & Hfields & Hother & Hlen).
  destruct (_to_float_errors (row_get row "htp_pct") "htp_pct" errs)
    as (extra & -> & Hextra).
  cbn [data date errors].
  assert (Hhtp : "htp_pct" ∉ METRIC_MAX_POINTS.*1).
  { apply (bool_decide_unpack _). vm_compute. exact I. }
  split; [| split].
  - intros field Hin. apply elem_of_app in Hin as [Hin | Hin].
    + rewrite lookup_insert_ne by (intros <-; contradiction). auto.
    + apply list_elem_of_singleton in Hin as ->. apply lookup_insert_eq.
  - intros key Hkey. apply not_elem_of_app in Hkey as [Hk1 Hk2].
    rewrite lookup_insert_ne.
    + rewrite (Hother _ Hk1). apply lookup_empty.
    + intros <-. apply Hk2, list_elem_of_here.
  - rewrite length_app, Hlen, Hextra, Hdated, filter_app, length_app.
    rewrite (filter_cons _ "htp_pct"), filter_nil.
    destruct (decide (reading row "htp_pct" = None)); simpl; lia.
Qed.

End ParsingLemmas.

Lemma filter_length_0 {A : Type} (P : A -> Prop) `{!forall x, Decision (P x)}
    (l : list A) :
  length (filter P l) = 0%nat <-> Forall (fun x => ~ P x) l.
Proof.
  induction l as [| x l IH]; [split; [constructor | reflexivity] |].
  rewrite filter_cons, Forall_cons. destruct (decide (P x)) as [Hx | Hx]; simpl.
  - split; [discriminate | tauto].
  - rewrite IH. tauto.
Qed.

(** X16.  Whatever the row holds, the record read from it has an entry
    for each metric of [METRIC_MAX_POINTS] and for ["htp_pct"], and for
    nothing else. *)
Theorem parse_csv_row_keys (float_of_string : string -> option Q)
    (repr strip : string -> string) (row : gmap string (option string))
    (key : string) :
  is_Some (data (parse_csv_row config float_of_string repr strip row) !! key) <->
  key ∈ ["opps_pct"; "ppvga_pct"; "internet_pct"; "accessories_pct";
         "protection_pct"; "rate_plan_pct"; "next_up_pct"; "event_opps_pct";
         "plus1_pct"; "csat_pct"; "htp_pct"].
Proof.
  destruct (parse_csv_row_spec float_of_string repr strip row) as (Hin & Hout & _).
  change ["opps_pct"; "ppvga_pct"; "internet_pct"; "accessories_pct";
          "protection_pct"; "rate_plan_pct"; "next_up_pct"; "event_opps_pct";
          "plus1_pct"; "csat_pct"; "htp_pct"]
    with (METRIC_MAX_POINTS.*1 ++ ["htp_pct"]).
  split.
  - intros Hsome.
    destruct (decide (key ∈ METRIC_MAX_POINTS.*1 ++ ["htp_pct"])) as [H | H];
      [exact H |].
    rewrite (Hout _ H) in Hsome. destruct Hsome as [? [=]].
  - intros H. rewrite (Hin _ H). eauto.
Qed.

(** X17.  The record read from a row holds one error for each of the
    eleven fields without a reading, and one more when the date is
    empty; so it has no error exactly when the date is not empty and
    every field has a reading. *)
Theorem parse_csv_row_errors (float_of_string : string -> option Q)
    (repr strip : string -> string) (row : gmap string (option string)) :
  let record := parse_csv_row config float_of_string repr strip row in
  let fields :=
    ["opps_pct"; "ppvga_pct"; "internet_pct"; "accessories_pct";
     "protection_pct"; "rate_plan_pct"; "next_up_pct"; "event_opps_pct";
     "plus1_pct"; "csat_pct"; "htp_pct"] in
  length (errors record)
  = ((if decide (date record = EmptyString) then 1 else 0)
     + length (filter (fun field => data_get (data record) field = None) fields))%nat
  /\
  (errors record = [] <->
   date record <> EmptyString /\
   Forall (fun field => is_Some (data_get (data record) field)) fields).
Proof.
  intros record fields.
  destruct (parse_csv_row_spec float_of_string repr strip row) as (Hin & _ & Hlen).
  fold record in Hin, Hlen.
  change (METRIC_MAX_POINTS.*1 ++ ["htp_pct"]) with fields in Hin, Hlen.
  assert (Hcount :
    length (errors record)
    = ((if decide (date record = EmptyString) then 1 else 0)
       + length (filter (fun field => data_get (data record) field = None) fields))%nat).
  { rewrite Hlen. f_equal. f_equal. apply filter_ext_elem_of.
    intros field Hfield. unfold data_get. rewrite (Hin _ Hfield). reflexivity. }
  split; [exact Hcount |].
  rewrite <- length_zero_iff_nil, Hcount.
  assert (Hnone : Forall (fun field => ~ data_get (data record) field = None) fields
                  <-> Forall (fun field => is_Some (data_get (data record) field))
                        fields).
  { apply Forall_proper; [| reflexivity]. intros field.
    rewrite eq_None_not_Some. destruct (decide (is_Some (data_get (data record) field)));
      tauto. }
  pose proof (filter_length_0
                (fun field => data_get (data record) field = None) fields) as Hzero.
  rewrite <- Hnone, <- Hzero.
  destruct (decide (date record = EmptyString)) as [Hdate | Hdate]; split.
  - intros H. exfalso. lia.
  - intros [Hdate' _]. contradiction.
  - intros H. split; [exact Hdate | lia].
  - intros [_ H0]. lia.
Qed.

(** X18.  A metric without a reading earns exactly 0 points in
    [compute_points], also ["protection_pct"] when the ["htp_pct"] rule
    halves it. *)
Theorem compute_points_missing_reading (record : Record) (metric_name : string)
    (max_points : Q) :
  dict_get metric_name METRIC_MAX_POINTS = Some max_points ->
  data_get (data record) metric_name = None ->
  exists points : gmap string Q,
    compute_points config record = Ok points /\
    points !! replace "_pct" "_points" metric_name = Some 0.
Proof.
  intros Hmax Hnone.
  destruct (compute_points_base record) as (base & _ & Hbase & Hpoints).
  destruct (Hbase _ _ Hmax) as (v & Hv & Hkey).
  rewrite Hnone in Hv. injection Hv as <-.
  rewrite Hpoints.
  destruct (data_get (data record) "htp_pct") as [htp |];
    [destruct (Qltb htp (13 # 2)) |]; eexists; (split; [reflexivity |]);
    try exact Hkey.
  destruct (decide ("protection_points" = replace "_pct" "_points" metric_name))
    as [E | NE].
  - rewrite <- E in *. rewrite Hkey. apply lookup_insert_eq.
  - rewrite lookup_insert_ne by exact NE. exact Hkey.
Qed.

Lemma compute_points_missing_reading_witness :
  exists points : gmap string Q,
    compute_points config (MkRecord {["htp_pct" := Some 5]} "" []) = Ok points /\
    points !! replace "_pct" "_points" "protection_pct" = Some 0.
Proof.
  apply (compute_points_missing_reading
           (MkRecord {["htp_pct" := Some 5]} "" []) "protection_pct" 5);
    reflexivity.
Defined.

(** X19.  The report has fourteen lines for a record without errors, and
    one line ["Errors:"] and one line per error more for a record with
    errors; the line ["Errors:"] is there exactly when the record has
    errors. *)
Theorem report_lines_count (record : Record) (points : gmap string Q)
    (power_rank : Q) :
  length (report_lines config record points power_rank)
  = (14 + match errors record with
          | [] => 0
          | _ :: _ => 1 + length (errors record)
          end)%nat /\
  ("Errors:" ∈ report_lines config record points power_rank <->
   errors record <> []).
Proof.
  unfold report_lines. change (metric_max_points config) with METRIC_MAX_POINTS.
  split.
  - destruct (errors record) as [| e es];
      rewrite ?length_app, ?length_fmap; simpl; lia.
  - assert (Hmetric :
      "Errors:" ∉ metric_line record points <$> METRIC_MAX_POINTS.*1).
    { intros Hin. apply list_elem_of_fmap in Hin as (m & E & _).
      unfold metric_line in E. discriminate E. }
    assert (Herror : forall es : list string,
              "Errors:" ∉ (fun error => "- " +:+ error) <$> es).
    { intros es Hin. apply list_elem_of_fmap in Hin as (e & E & _).
      discriminate E. }
    destruct (errors record) as [| e es].
    + split; [| intros H; now destruct H].
      intros Hin. exfalso. revert Hin.
      rewrite !elem_of_app, !elem_of_cons, elem_of_nil.
      intros [[[H | [H | H]] | H] | [H | [H | H]]];
        first [ discriminate H | contradiction ].
    + split; [discriminate |]. intros _.
      rewrite !elem_of_app. left. left. right. apply list_elem_of_here.
Qed.
